(** * SceneManager: texture registry, model transform and the fixed scene

    A shallow embedding of [scenemanager.cpp] / [SceneManager.h].

    - The object's fields and the part of the outside world the code reads
      (the disk as seen by [stbi_load], the texture names handed out by
      [glGenTextures]) form an explicit machine state.
    - Member functions are computations in a small state/trace/error monad:
      they thread the state, append the calls they make to external
      libraries (ShaderManager, ShapeMeshes, OpenGL, stb_image, iostream) to
      a chronological log, and stop with [Undefined] where C++ gives the
      program no meaning (indexing [m_textureIDs] outside [0..15], calling
      through a null [m_pShaderManager]).
    - GLM and the [float] type are external: they are taken as an interface
      ([GlmOps]); a free term instance is given so that statements can be
      evaluated on concrete inputs. *)

From Stdlib Require Import ZArith QArith Lia.
From stdpp Require Import base list strings.

Open Scope string_scope.
Open Scope Z_scope.

(** ** GLM interface *)

Record vec2 (F : Type) := mk_vec2 { v2x : F; v2y : F }.
Record vec3 (F : Type) := mk_vec3 { v3x : F; v3y : F; v3z : F }.
Arguments mk_vec2 {F} _ _.
Arguments mk_vec3 {F} _ _ _.

(** The operations of GLM (and of C++ [float]) that the scene manager uses.
    [f32 q] is the [float] denoted by the literal whose decimal value is [q]
    (an [int] literal passed where a [float] is expected converts the same
    way); [mat_mul] is [operator*] on [glm::mat4]. *)
Class GlmOps := {
  float : Type;
  mat4 : Type;
  f32 : Q -> float;
  glm_radians : float -> float;
  glm_translate : vec3 float -> mat4;
  glm_rotate : float -> vec3 float -> mat4;
  glm_scale : vec3 float -> mat4;
  mat_mul : mat4 -> mat4 -> mat4
}.

(** ** Data of the class *)

Module TEXTURE_INFO.
Record t := mk { tag : string; ID : Z (* uint32_t *) }.
End TEXTURE_INFO.

(** [(uint32_t) z] *)
Definition uint32 (z : Z) : Z := z mod 2 ^ 32.

(** What [stbi_load] reports for a file it could decode. *)
Record stbi_image := { width : Z; height : Z; colorChannels : Z }.

(** The machine: the three fields of [SceneManager] that the code under
    study reads or writes, and the environment.  [disk f] is the answer of
    [stbi_load] for file [f] ([None]: a null image pointer);
    [gl_name k] is the name written by the [k]-th call of [glGenTextures]. *)
Record State := {
  m_pShaderManager : option N;          (* None: nullptr *)
  m_loadedTextures : Z;                 (* int *)
  m_textureIDs : list TEXTURE_INFO.t;   (* TEXTURE_INFO[16] *)
  disk : string -> option stbi_image;
  gl_name : nat -> Z;
  gl_generated : nat
}.

Definition set_loadedTextures (n : Z) (s : State) : State :=
  {| m_pShaderManager := m_pShaderManager s; m_loadedTextures := n;
     m_textureIDs := m_textureIDs s; disk := disk s;
     gl_name := gl_name s; gl_generated := gl_generated s |}.

Definition set_textureIDs (a : list TEXTURE_INFO.t) (s : State) : State :=
  {| m_pShaderManager := m_pShaderManager s;
     m_loadedTextures := m_loadedTextures s;
     m_textureIDs := a; disk := disk s;
     gl_name := gl_name s; gl_generated := gl_generated s |}.

Definition set_gl_generated (k : nat) (s : State) : State :=
  {| m_pShaderManager := m_pShaderManager s;
     m_loadedTextures := m_loadedTextures s;
     m_textureIDs := m_textureIDs s; disk := disk s;
     gl_name := gl_name s; gl_generated := k |}.

(** The texture registry of a state: the counter and the array. *)
Definition registry (s : State) : Z * list TEXTURE_INFO.t :=
  (m_loadedTextures s, m_textureIDs s).

(** ** Calls that leave the class *)

Inductive gl_target := GL_TEXTURE_2D.
Inductive gl_pname :=
  GL_TEXTURE_WRAP_S | GL_TEXTURE_WRAP_T
| GL_TEXTURE_MIN_FILTER | GL_TEXTURE_MAG_FILTER.
Inductive gl_param := GL_REPEAT | GL_LINEAR_MIPMAP_LINEAR | GL_LINEAR.
Inductive gl_format := GL_RGB8 | GL_RGBA8 | GL_RGB | GL_RGBA.

Inductive cout_line :=
| CouldNotLoad (filename : string)
| SuccessfullyLoaded (filename : string) (w h channels : Z)
| UnsupportedChannels (channels : Z) (filename : string).

Section Scene.
Context {glm : GlmOps}.

(** One entry of the log.  The first three constructors are ghost marks
    recording that a member function was entered with the given arguments;
    [CallSetTextureUVScale] stands for the whole call, since the body of
    [SetTextureUVScale] is not part of the sources (it is declared in the
    header only).  All other constructors are calls into external code. *)
Inductive event :=
| CallSetTransformations (scaleXYZ : vec3 float)
    (XrotationDegrees YrotationDegrees ZrotationDegrees : float)
    (positionXYZ : vec3 float)
| CallSetShaderTexture (tag : string) (scale : float)
| CallSetTextureUVScale (u v : float)
  (* ShaderManager *)
| setMat4Value (name : string) (m : mat4)
| setIntValue (name : string) (v : Z)
| setBoolValue (name : string) (b : bool)
| setFloatValue (name : string) (f : float)
| setSampler2DValue (name : string) (slot : Z)
| setVec2Value (name : string) (v : vec2 float)
| setVec3Value (name : string) (v : vec3 float)
  (* ShapeMeshes *)
| LoadPlaneMesh | LoadBoxMesh | LoadCylinderMesh
| DrawPlaneMesh | DrawBoxMesh | DrawCylinderMesh
  (* stb_image *)
| stbi_set_flip_vertically_on_load (b : bool)
| stbi_load (filename : string)
| stbi_image_free
  (* OpenGL *)
| glGenTextures (name : Z)
| glBindTexture (target : gl_target) (name : Z)
| glTexParameteri (target : gl_target) (pname : gl_pname) (param : gl_param)
| glTexImage2D (target : gl_target) (internalformat : gl_format)
    (w h : Z) (format : gl_format)
| glGenerateMipmap (target : gl_target)
| glActiveTexture (unit : Z)               (* GL_TEXTURE0 + unit *)
| glDeleteTextures (name : Z)
  (* iostream *)
| cout (line : cout_line).

(** ** The monad *)

Inductive undefined_behaviour :=
| NullShaderManager
| IndexOutOfBounds (i : Z).

Inductive outcome (A : Type) :=
| Done (a : A) (s : State) (log : list event)
| Undefined (why : undefined_behaviour).
Arguments Done {A} _ _ _.
Arguments Undefined {A} _.

Definition M (A : Type) := State -> outcome A.

Definition ret {A} (a : A) : M A := fun s => Done a s [].

Definition bind {A B} (m : M A) (k : A -> M B) : M B :=
  fun s =>
    match m s with
    | Done a s1 l1 =>
        match k a s1 with
        | Done b s2 l2 => Done b s2 (l1 ++ l2)
        | Undefined u => Undefined u
        end
    | Undefined u => Undefined u
    end.

Definition emit (e : event) : M unit := fun s => Done tt s [e].
Definition get : M State := fun s => Done s s [].
Definition modify (f : State -> State) : M unit := fun s => Done tt (f s) [].
Definition undefined {A} (u : undefined_behaviour) : M A :=
  fun _ => Undefined u.

(** stdpp's notations [x ← m; k] and [m;; k] are used for sequencing. *)
#[export] Instance M_ret : MRet M := @ret.
#[export] Instance M_bind : MBind M := fun A B k m => bind m k.

(** [for (int i = from; i < from + count; i++) body(i)], for a body that
    does not change the bound. *)
Fixpoint for_loop (count : nat) (i : Z) (body : Z -> M unit) : M unit :=
  match count with
  | O => ret tt
  | S rest => body i ;; for_loop rest (i + 1) body
  end.

(** ** Access to [m_textureIDs]: sixteen elements, indices 0..15 *)

Definition in_bounds (i : Z) : bool := (0 <=? i) && (i <? 16).

Definition read_slot (i : Z) : M TEXTURE_INFO.t :=
  fun s =>
    if in_bounds i then
      match m_textureIDs s !! Z.to_nat i with
      | Some e => Done e s []
      | None => Undefined (IndexOutOfBounds i)
      end
    else Undefined (IndexOutOfBounds i).

Definition write_slot (i : Z) (f : TEXTURE_INFO.t -> TEXTURE_INFO.t) : M unit :=
  e ← read_slot i;
  modify (fun s => set_textureIDs (<[Z.to_nat i := f e]> (m_textureIDs s)) s).

Definition set_ID (v : Z) (e : TEXTURE_INFO.t) : TEXTURE_INFO.t :=
  TEXTURE_INFO.mk (TEXTURE_INFO.tag e) v.
Definition set_tag (t : string) (e : TEXTURE_INFO.t) : TEXTURE_INFO.t :=
  TEXTURE_INFO.mk t (TEXTURE_INFO.ID e).

(** Calls through [m_pShaderManager->]. *)
Definition shader_call (e : event) : M unit :=
  s ← get;
  match m_pShaderManager s with
  | Some _ => emit e
  | None => undefined NullShaderManager
  end.

(** ** Uniform names *)

Definition g_ModelName := "model".
Definition g_ColorValueName := "objectColor".
Definition g_TextureValueName := "objectTexture".
Definition g_UseTextureName := "bUseTexture".
Definition g_UseLightingName := "bUseLighting".

(** ** Member functions *)

(** The object as the constructor leaves it, in a given environment. *)
Definition SceneManager_new (pShaderManager : option N)
    (d : string -> option stbi_image) (names : nat -> Z) (k : nat) : State :=
  {| m_pShaderManager := pShaderManager;
     m_loadedTextures := 0;
     m_textureIDs := replicate 16 (TEXTURE_INFO.mk "/0" (uint32 (-1)));
     disk := d; gl_name := names; gl_generated := k |}.

Definition gen_texture : M Z :=
  s ← get;
  let textureID := uint32 (gl_name s (gl_generated s)) in
  modify (set_gl_generated (S (gl_generated s)));;
  emit (glGenTextures textureID);;
  ret textureID.

(** The last three statements of [CreateGLTexture]:
    [m_textureIDs[m_loadedTextures].ID = textureID;]
    [m_textureIDs[m_loadedTextures].tag = tag;  m_loadedTextures++;] *)
Definition store_texture (textureID : Z) (tag : string) : M unit :=
  s ← get;
  write_slot (m_loadedTextures s) (set_ID textureID);;
  write_slot (m_loadedTextures s) (set_tag tag);;
  modify (set_loadedTextures (m_loadedTextures s + 1)).

Definition CreateGLTexture (filename : string) (tag : string) : M bool :=
  emit (stbi_set_flip_vertically_on_load true);;
  emit (stbi_load filename);;
  s ← get;
  match disk s filename with
  | None =>
      emit (cout (CouldNotLoad filename));;
      ret false
  | Some image =>
      emit (cout (SuccessfullyLoaded filename (width image) (height image)
                    (colorChannels image)));;
      textureID ← gen_texture;
      emit (glBindTexture GL_TEXTURE_2D textureID);;
      emit (glTexParameteri GL_TEXTURE_2D GL_TEXTURE_WRAP_S GL_REPEAT);;
      emit (glTexParameteri GL_TEXTURE_2D GL_TEXTURE_WRAP_T GL_REPEAT);;
      emit (glTexParameteri GL_TEXTURE_2D GL_TEXTURE_MIN_FILTER
              GL_LINEAR_MIPMAP_LINEAR);;
      emit (glTexParameteri GL_TEXTURE_2D GL_TEXTURE_MAG_FILTER GL_LINEAR);;
      let finish :=
        emit (glGenerateMipmap GL_TEXTURE_2D);;
        emit stbi_image_free;;
        emit (glBindTexture GL_TEXTURE_2D 0);;
        store_texture textureID tag;;
        ret true in
      if colorChannels image =? 3 then
        emit (glTexImage2D GL_TEXTURE_2D GL_RGB8 (width image) (height image)
                GL_RGB);;
        finish
      else if colorChannels image =? 4 then
        emit (glTexImage2D GL_TEXTURE_2D GL_RGBA8 (width image) (height image)
                GL_RGBA);;
        finish
      else
        emit (cout (UnsupportedChannels (colorChannels image) filename));;
        emit stbi_image_free;;
        ret false
  end.

Definition BindGLTextures : M unit :=
  s ← get;
  for_loop (Z.to_nat (m_loadedTextures s)) 0 (fun i =>
    emit (glActiveTexture i);;
    e ← read_slot i;
    emit (glBindTexture GL_TEXTURE_2D (TEXTURE_INFO.ID e))).

(** The body of the loop of [DestroyGLTextures]. *)
Definition DestroyGLTextures_body (i : Z) : M unit :=
  e ← read_slot i;
  if negb (TEXTURE_INFO.ID e =? uint32 (-1)) then
    emit (glDeleteTextures (TEXTURE_INFO.ID e));;
    write_slot i (set_ID (uint32 (-1)));;
    write_slot i (set_tag "/0")
  else ret tt.

Definition DestroyGLTextures : M unit :=
  s ← get;
  for_loop (Z.to_nat (m_loadedTextures s)) 0 DestroyGLTextures_body;;
  modify (set_loadedTextures 0).

(** The loop of [FindTextureSlot], with [count] iterations left. *)
Fixpoint FindTextureSlot_from (count : nat) (i : Z) (tag : string) : M Z :=
  match count with
  | O => ret (-1)
  | S rest =>
      e ← read_slot i;
      if String.eqb (TEXTURE_INFO.tag e) tag then ret i
      else FindTextureSlot_from rest (i + 1) tag
  end.

Definition FindTextureSlot (tag : string) : M Z :=
  s ← get;
  FindTextureSlot_from (Z.to_nat (m_loadedTextures s)) 0 tag.

Definition axis (x y z : Q) : vec3 float := mk_vec3 (f32 x) (f32 y) (f32 z).

(** The value of the local [model] in [SetTransformations];
    [operator*] associates to the left. *)
Definition model_matrix (scaleXYZ : vec3 float)
    (XrotationDegrees YrotationDegrees ZrotationDegrees : float)
    (positionXYZ : vec3 float) : mat4 :=
  mat_mul
    (mat_mul
       (mat_mul
          (mat_mul
             (glm_translate positionXYZ)
             (glm_rotate (glm_radians ZrotationDegrees) (axis 0 0 1)))
          (glm_rotate (glm_radians YrotationDegrees) (axis 0 1 0)))
       (glm_rotate (glm_radians XrotationDegrees) (axis 1 0 0)))
    (glm_scale scaleXYZ).

Definition SetTransformations (scaleXYZ : vec3 float)
    (XrotationDegrees YrotationDegrees ZrotationDegrees : float)
    (positionXYZ : vec3 float) : M unit :=
  emit (CallSetTransformations scaleXYZ XrotationDegrees YrotationDegrees
          ZrotationDegrees positionXYZ);;
  let model := model_matrix scaleXYZ XrotationDegrees YrotationDegrees
                 ZrotationDegrees positionXYZ in
  s ← get;
  match m_pShaderManager s with
  | Some _ => shader_call (setMat4Value g_ModelName model)
  | None => ret tt
  end.

Definition SetShaderTexture (tag : string) (scale : float) : M unit :=
  emit (CallSetShaderTexture tag scale);;
  s ← get;
  match m_pShaderManager s with
  | Some _ =>
      shader_call (setIntValue g_UseTextureName 1);;   (* true, as an int *)
      slot ← FindTextureSlot tag;
      shader_call (setSampler2DValue g_TextureValueName slot);;
      shader_call (setVec2Value "UVscale" (mk_vec2 scale scale))
  | None => ret tt
  end.

(** Modelled from the spec: the body of [SetTextureUVScale] is missing
    from the sources (the header declares it: "set the UV scale uniform for
    tiling textures"; [RenderScene] calls it).  The spec counts it under
    the per-draw-call uniform configuration and says no more, so the call
    is recorded as one log entry and taken to leave the fields alone. *)
Definition SetTextureUVScale (u v : float) : M unit :=
  emit (CallSetTextureUVScale u v).

Definition splat3 (x : float) : vec3 float := mk_vec3 x x x.

Definition SetupSceneLights : M unit :=
  shader_call (setBoolValue g_UseLightingName true);;
  shader_call (setVec3Value "dirLight.direction"
                 (mk_vec3 (f32 (-0.5)) (f32 (-1.0)) (f32 (-0.3))));;
  shader_call (setVec3Value "dirLight.ambient" (splat3 (f32 0.1)));;
  shader_call (setVec3Value "dirLight.diffuse" (splat3 (f32 0.8)));;
  shader_call (setVec3Value "dirLight.specular" (splat3 (f32 1.0)));;
  shader_call (setVec3Value "pointLight.position"
                 (mk_vec3 (f32 0.0) (f32 10.0) (f32 0.0)));;
  shader_call (setVec3Value "pointLight.ambient" (splat3 (f32 0.05)));;
  shader_call (setVec3Value "pointLight.diffuse" (splat3 (f32 0.5)));;
  shader_call (setVec3Value "pointLight.specular" (splat3 (f32 0.7)));;
  shader_call (setFloatValue "pointLight.constant" (f32 1.0));;
  shader_call (setFloatValue "pointLight.linear" (f32 0.09));;
  shader_call (setFloatValue "pointLight.quadratic" (f32 0.032)).

Definition LoadSceneTextures : M unit :=
  CreateGLTexture "textures/wood.jpg" "wood";;
  CreateGLTexture "textures/white_wood.jpg" "whiteWood";;
  CreateGLTexture "textures/concrete.png" "concrete";;
  CreateGLTexture "textures/green.png" "green";;
  CreateGLTexture "textures/gray.png" "gray";;
  CreateGLTexture "textures/black.png" "black";;
  BindGLTextures.

Definition PrepareScene : M unit :=
  LoadSceneTextures;;
  emit LoadPlaneMesh;;
  emit LoadBoxMesh;;
  emit LoadCylinderMesh;;
  SetupSceneLights.

Definition v3 (x y z : Q) : vec3 float := mk_vec3 (f32 x) (f32 y) (f32 z).

Definition RenderScene : M unit :=
  let rotX := f32 0.0 in
  let rotY := f32 0.0 in
  let rotZ := f32 0.0 in
  (* Ground plane *)
  let scale := v3 50.0 1.0 50.0 in
  let position := v3 0.0 (-0.5) 0.0 in
  SetTransformations scale rotX rotY rotZ position;;
  SetShaderTexture "wood" (f32 10.0);;
  emit DrawPlaneMesh;;
  (* Kitchen island base *)
  let scale := v3 10.0 4.0 4.0 in
  let position := v3 0.0 2.0 0.0 in
  SetTransformations scale rotX rotY rotZ position;;
  SetShaderTexture "whiteWood" (f32 2.0);;
  emit DrawBoxMesh;;
  (* Kitchen island countertop *)
  let scale := v3 11.0 0.3 5.0 in
  let position := v3 0.0 4.3 0.0 in
  SetTransformations scale rotX rotY rotZ position;;
  SetShaderTexture "concrete" (f32 2.0);;
  emit DrawBoxMesh;;
  (* Laptop base *)
  SetTransformations (v3 1.05 0.06 0.7) (f32 0) (f32 16) (f32 0)
    (v3 (-1.4) 2.49 (-0.45));;
  SetShaderTexture "black" (f32 1.0);;
  SetTextureUVScale (f32 1.0) (f32 1.0);;
  emit DrawBoxMesh;;
  (* Laptop screen *)
  SetTransformations (v3 1.05 0.75 0.06) (f32 (-90)) (f32 16) (f32 0)
    (v3 (-1.4) 2.87 (-0.05));;
  SetShaderTexture "black" (f32 1.0);;
  emit DrawBoxMesh;;
  (* Water bottle *)
  SetTransformations (v3 0.13 0.45 0.13) (f32 0) (f32 0) (f32 0)
    (v3 0 2.57 (-0.17));;
  SetShaderTexture "gray" (f32 1.0);;
  SetTextureUVScale (f32 1.0) (f32 1.0);;
  emit DrawCylinderMesh;;
  (* Cap *)
  SetTransformations (v3 0.15 0.04 0.15) (f32 0) (f32 0) (f32 0)
    (v3 0 2.81 (-0.17));;
  SetShaderTexture "black" (f32 1.0);;
  emit DrawCylinderMesh;;
  (* Green shoebox *)
  SetTransformations (v3 0.7 1.1 0.35) (f32 0) (f32 (-13)) (f32 0)
    (v3 1.5 2.92 0.7);;
  SetShaderTexture "green" (f32 1.0);;
  SetTextureUVScale (f32 1.0) (f32 1.0);;
  emit DrawBoxMesh.

End Scene.

Arguments Done {glm A} _ _ _.
Arguments Undefined {glm A} _.

(** ** Reading outcomes *)

Definition log_of `{GlmOps} {A} (o : outcome A) : list event :=
  match o with
  | Done _ _ l => l
  | Undefined _ => []
  end.

(** The matrices sent to the "model" uniform, in order. *)
Definition model_uploads `{GlmOps} (l : list event) : list mat4 :=
  flat_map (fun e =>
    match e with
    | setMat4Value name m => if String.eqb name "model" then [m] else []
    | _ => []
    end) l.

(** ** The model matrix as the claim words it *)

Section ModelSpec.
Context {glm : GlmOps}.

Definition Rx (angle : float) : mat4 := glm_rotate angle (axis 1 0 0).
Definition Ry (angle : float) : mat4 := glm_rotate angle (axis 0 1 0).
Definition Rz (angle : float) : mat4 := glm_rotate angle (axis 0 0 1).

(** The five factors, leftmost first. *)
Definition model_factors (scaleXYZ : vec3 float) (X Y Z : float)
    (positionXYZ : vec3 float) : list mat4 :=
  [ glm_translate positionXYZ;
    Rz (glm_radians Z); Ry (glm_radians Y); Rx (glm_radians X);
    glm_scale scaleXYZ ].

(** A product written [a * b * c * ...] is evaluated from the left. *)
Definition product_from_left (ms : list mat4) : option mat4 :=
  match ms with
  | [] => None
  | m :: rest => Some (fold_left mat_mul rest m)
  end.

End ModelSpec.

(** ** The free instance of the GLM interface

    Floats and matrices are the terms built from the interface's
    operations, so that two values are equal only if they were built the
    same way. *)

Inductive sfloat := SLit (q : Q) | SRadians (degrees : sfloat).

Inductive smat :=
| STranslate (v : vec3 sfloat)
| SRotate (angle : sfloat) (axis : vec3 sfloat)
| SScale (v : vec3 sfloat)
| SMul (a b : smat).

#[export] Instance sym_glm : GlmOps :=
  {| float := sfloat; mat4 := smat; f32 := SLit; glm_radians := SRadians;
     glm_translate := STranslate; glm_rotate := SRotate; glm_scale := SScale;
     mat_mul := SMul |}.

(** The factors of a product term, left to right, and the number of
    multiplications in it. *)
Fixpoint factors (m : smat) : list smat :=
  match m with
  | SMul a b => factors a ++ factors b
  | _ => [m]
  end.

Fixpoint multiplications (m : smat) : nat :=
  match m with
  | SMul a b => S (multiplications a + multiplications b)
  | _ => O
  end.

(** A concrete object: a non-null shader manager, every file on disk a
    three-channel 64x64 image, texture names 1, 2, 3, ... *)
Definition demo_disk (filename : string) : option stbi_image :=
  Some {| width := 64; height := 64; colorChannels := 3 |}.
Definition demo_names (k : nat) : Z := Z.of_nat k + 1.
Definition demo_new : State :=
  SceneManager_new (Some 1%N) demo_disk demo_names 0.

(** The array has its sixteen elements and the counter is within it. *)
Definition valid_registry (s : State) : Prop :=
  length (m_textureIDs s) = 16%nat /\ 0 <= m_loadedTextures s <= 16.

(** Entry [i] of the array carries [tag]. *)
Definition tag_at (s : State) (i : Z) (tag : string) : Prop :=
  exists e, m_textureIDs s !! Z.to_nat i = Some e /\ TEXTURE_INFO.tag e = tag.

(** Two states have the same loaded entries. *)
Definition same_loaded_entries (s s' : State) : Prop :=
  m_loadedTextures s' = m_loadedTextures s /\
  forall i, 0 <= i < m_loadedTextures s ->
    m_textureIDs s' !! Z.to_nat i = m_textureIDs s !! Z.to_nat i.

(** A registry holding three textures. *)
Definition demo_three : State :=
  {| m_pShaderManager := Some 1%N;
     m_loadedTextures := 3;
     m_textureIDs :=
       [ TEXTURE_INFO.mk "wood" 1; TEXTURE_INFO.mk "gray" 2;
         TEXTURE_INFO.mk "wood" 3 ] ++
       replicate 13 (TEXTURE_INFO.mk "/0" (uint32 (-1)));
     disk := demo_disk; gl_name := demo_names; gl_generated := 3 |}.

(** The slot [FindTextureSlot] answers with. *)
Definition slot_of `{GlmOps} (tag : string) (s : State) : Z :=
  match FindTextureSlot tag s with
  | Done r _ _ => r
  | Undefined _ => -1
  end.

(** What [SetShaderTexture] logs, given the slot found. *)
Definition texture_log `{GlmOps} (shader : option N) (slot : Z)
    (tag : string) (scale : float) : list event :=
  CallSetShaderTexture tag scale ::
  match shader with
  | Some _ =>
      [ setIntValue "bUseTexture" 1;
        setSampler2DValue "objectTexture" slot;
        setVec2Value "UVscale" (mk_vec2 scale scale) ]
  | None => []
  end.

(** [stbi_load] gives no image, or one whose channel count is neither 3
    nor 4. *)
Definition load_fails (s : State) (filename : string) : bool :=
  match disk s filename with
  | None => true
  | Some image =>
      negb ((colorChannels image =? 3) || (colorChannels image =? 4))
  end.

(** What a successful [CreateGLTexture] logs. *)
Definition created_log `{GlmOps} (filename : string) (image : stbi_image)
    (textureID : Z) : list event :=
  [ stbi_set_flip_vertically_on_load true;
    stbi_load filename;
    cout (SuccessfullyLoaded filename (width image) (height image)
            (colorChannels image));
    glGenTextures textureID;
    glBindTexture GL_TEXTURE_2D textureID;
    glTexParameteri GL_TEXTURE_2D GL_TEXTURE_WRAP_S GL_REPEAT;
    glTexParameteri GL_TEXTURE_2D GL_TEXTURE_WRAP_T GL_REPEAT;
    glTexParameteri GL_TEXTURE_2D GL_TEXTURE_MIN_FILTER
      GL_LINEAR_MIPMAP_LINEAR;
    glTexParameteri GL_TEXTURE_2D GL_TEXTURE_MAG_FILTER GL_LINEAR;
    if colorChannels image =? 3
    then glTexImage2D GL_TEXTURE_2D GL_RGB8 (width image) (height image) GL_RGB
    else glTexImage2D GL_TEXTURE_2D GL_RGBA8 (width image) (height image)
           GL_RGBA;
    glGenerateMipmap GL_TEXTURE_2D;
    stbi_image_free;
    glBindTexture GL_TEXTURE_2D 0 ].

(** The state after a successful [CreateGLTexture]: one more texture name
    handed out, the entry at [m_loadedTextures] filled, the counter moved. *)
Definition texture_stored (tag : string) (s : State) : State :=
  let textureID := uint32 (gl_name s (gl_generated s)) in
  {| m_pShaderManager := m_pShaderManager s;
     m_loadedTextures := m_loadedTextures s + 1;
     m_textureIDs :=
       <[Z.to_nat (m_loadedTextures s) := TEXTURE_INFO.mk tag textureID]>
         (m_textureIDs s);
     disk := disk s; gl_name := gl_name s;
     gl_generated := S (gl_generated s) |}.

(** ** Reachable states *)

(** One defined call of [CreateGLTexture] or [DestroyGLTextures]. *)
Inductive step `{GlmOps} : State -> State -> Prop :=
| step_CreateGLTexture (s : State) (filename tag : string) (b : bool)
    (s' : State) (l : list event) :
    CreateGLTexture filename tag s = Done b s' l -> step s s'
| step_DestroyGLTextures (s s' : State) (l : list event) :
    DestroyGLTextures s = Done tt s' l -> step s s'.

(** States reached from the constructor by such calls. *)
Inductive reachable `{GlmOps} : State -> Prop :=
| reachable_new (pShaderManager : option N)
    (d : string -> option stbi_image) (names : nat -> Z) (k : nat) :
    reachable (SceneManager_new pShaderManager d names k)
| reachable_step (s s' : State) :
    reachable s -> step s s' -> reachable s'.

(** The entry the constructor and [DestroyGLTextures] write. *)
Definition empty_entry : TEXTURE_INFO.t :=
  TEXTURE_INFO.mk "/0" (uint32 (-1)).

(** Every entry at or above the counter is empty. *)
Definition prefix_invariant (s : State) : Prop :=
  forall i, m_loadedTextures s <= i < 16 ->
    m_textureIDs s !! Z.to_nat i = Some empty_entry.

(** [glGenTextures] never hands out the name 0xFFFFFFFF. *)
Definition names_never_sentinel (s : State) : Prop :=
  forall k, uint32 (gl_name s k) <> uint32 (-1).

(** [n] successive loads of the same texture. *)
Fixpoint load_textures `{GlmOps} (n : nat) : M unit :=
  match n with
  | O => ret tt
  | S k => CreateGLTexture "textures/wood.jpg" "wood";; load_textures k
  end.

(** An environment in which [glGenTextures] hands out 0xFFFFFFFF. *)
Definition sentinel_new : State :=
  SceneManager_new (Some 1%N) demo_disk (fun _ => 4294967295) 0.

(** Two states differ at most in the array. *)
Definition same_but_array (s s' : State) : Prop :=
  m_pShaderManager s' = m_pShaderManager s /\
  m_loadedTextures s' = m_loadedTextures s /\
  disk s' = disk s /\ gl_name s' = gl_name s /\
  gl_generated s' = gl_generated s.

(** Every loaded entry holds a name other than the sentinel. *)
Definition loaded_ids_real (s : State) : Prop :=
  forall i e, 0 <= i < m_loadedTextures s ->
    m_textureIDs s !! Z.to_nat i = Some e ->
    TEXTURE_INFO.ID e <> uint32 (-1).

(** The state a computation ends in (the starting state if it has none). *)
Definition state_after `{GlmOps} {A} (m : M A) (s : State) : State :=
  match m s with
  | Done _ s' _ => s'
  | Undefined _ => s
  end.

(** Sixteen textures loaded into a fresh object. *)
Definition sixteen_loaded : State := state_after (load_textures 16) demo_new.

(** A fresh object whose GL hands out the name 1, and the same object after
    two loads, a [DestroyGLTextures] and one more load. *)
Definition one_new : State :=
  SceneManager_new (Some 1%N) demo_disk (fun _ => 1) 0.
Definition one_reloaded : State :=
  state_after (CreateGLTexture "textures/black.png" "black")
    (state_after DestroyGLTextures
       (state_after (CreateGLTexture "textures/gray.png" "gray")
          (state_after (CreateGLTexture "textures/wood.jpg" "wood")
             one_new))).

(** ** Reading the log of a frame *)

Section SceneLog.
Context {glm : GlmOps}.

(** What [SetTransformations] logs. *)
Definition transform_log (shader : option N) (scaleXYZ : vec3 float)
    (X Y Z : float) (positionXYZ : vec3 float) : list event :=
  CallSetTransformations scaleXYZ X Y Z positionXYZ ::
  match shader with
  | Some _ =>
      [ setMat4Value "model" (model_matrix scaleXYZ X Y Z positionXYZ) ]
  | None => []
  end.

(** The log of one [RenderScene], as a function of the shader-manager
    pointer and of the slot found for each tag. *)
Definition scene_log (shader : option N) (slot : string -> Z) : list event :=
  (transform_log shader (v3 50.0 1.0 50.0) (f32 0.0) (f32 0.0) (f32 0.0)
     (v3 0.0 (-0.5) 0.0) ++
   texture_log shader (slot "wood") "wood" (f32 10.0) ++
   [DrawPlaneMesh] ++
   transform_log shader (v3 10.0 4.0 4.0) (f32 0.0) (f32 0.0) (f32 0.0)
     (v3 0.0 2.0 0.0) ++
   texture_log shader (slot "whiteWood") "whiteWood" (f32 2.0) ++
   [DrawBoxMesh] ++
   transform_log shader (v3 11.0 0.3 5.0) (f32 0.0) (f32 0.0) (f32 0.0)
     (v3 0.0 4.3 0.0) ++
   texture_log shader (slot "concrete") "concrete" (f32 2.0) ++
   [DrawBoxMesh] ++
   transform_log shader (v3 1.05 0.06 0.7) (f32 0) (f32 16) (f32 0)
     (v3 (-1.4) 2.49 (-0.45)) ++
   texture_log shader (slot "black") "black" (f32 1.0) ++
   [CallSetTextureUVScale (f32 1.0) (f32 1.0); DrawBoxMesh] ++
   transform_log shader (v3 1.05 0.75 0.06) (f32 (-90)) (f32 16) (f32 0)
     (v3 (-1.4) 2.87 (-0.05)) ++
   texture_log shader (slot "black") "black" (f32 1.0) ++
   [DrawBoxMesh] ++
   transform_log shader (v3 0.13 0.45 0.13) (f32 0) (f32 0) (f32 0)
     (v3 0 2.57 (-0.17)) ++
   texture_log shader (slot "gray") "gray" (f32 1.0) ++
   [CallSetTextureUVScale (f32 1.0) (f32 1.0); DrawCylinderMesh] ++
   transform_log shader (v3 0.15 0.04 0.15) (f32 0) (f32 0) (f32 0)
     (v3 0 2.81 (-0.17)) ++
   texture_log shader (slot "black") "black" (f32 1.0) ++
   [DrawCylinderMesh] ++
   transform_log shader (v3 0.7 1.1 0.35) (f32 0) (f32 (-13)) (f32 0)
     (v3 1.5 2.92 0.7) ++
   texture_log shader (slot "green") "green" (f32 1.0) ++
   [CallSetTextureUVScale (f32 1.0) (f32 1.0); DrawBoxMesh])%list.

Definition is_draw (e : event) : bool :=
  match e with
  | DrawPlaneMesh | DrawBoxMesh | DrawCylinderMesh => true
  | _ => false
  end.

(** Entry into one of the per-object setters. *)
Definition is_setter_call (e : event) : bool :=
  match e with
  | CallSetTransformations _ _ _ _ _ | CallSetShaderTexture _ _
  | CallSetTextureUVScale _ _ => true
  | _ => false
  end.

(** The image upload of [CreateGLTexture]. *)
Definition is_texture_upload (e : event) : bool :=
  match e with
  | glTexImage2D _ _ _ _ _ => true
  | _ => false
  end.

(** The draw calls of a log, and its draw calls together with the setter
    calls that prepare them. *)
Definition mesh_draws (l : list event) : list event := List.filter is_draw l.
Definition scene_calls (l : list event) : list event :=
  List.filter (fun e => is_setter_call e || is_draw e) l.

(** The eight objects of the scene: setter calls, then the draw. *)
Definition fixed_scene : list event :=
  [ CallSetTransformations (v3 50.0 1.0 50.0) (f32 0.0) (f32 0.0) (f32 0.0)
      (v3 0.0 (-0.5) 0.0);
    CallSetShaderTexture "wood" (f32 10.0);
    DrawPlaneMesh;
    CallSetTransformations (v3 10.0 4.0 4.0) (f32 0.0) (f32 0.0) (f32 0.0)
      (v3 0.0 2.0 0.0);
    CallSetShaderTexture "whiteWood" (f32 2.0);
    DrawBoxMesh;
    CallSetTransformations (v3 11.0 0.3 5.0) (f32 0.0) (f32 0.0) (f32 0.0)
      (v3 0.0 4.3 0.0);
    CallSetShaderTexture "concrete" (f32 2.0);
    DrawBoxMesh;
    CallSetTransformations (v3 1.05 0.06 0.7) (f32 0) (f32 16) (f32 0)
      (v3 (-1.4) 2.49 (-0.45));
    CallSetShaderTexture "black" (f32 1.0);
    CallSetTextureUVScale (f32 1.0) (f32 1.0);
    DrawBoxMesh;
    CallSetTransformations (v3 1.05 0.75 0.06) (f32 (-90)) (f32 16) (f32 0)
      (v3 (-1.4) 2.87 (-0.05));
    CallSetShaderTexture "black" (f32 1.0);
    DrawBoxMesh;
    CallSetTransformations (v3 0.13 0.45 0.13) (f32 0) (f32 0) (f32 0)
      (v3 0 2.57 (-0.17));
    CallSetShaderTexture "gray" (f32 1.0);
    CallSetTextureUVScale (f32 1.0) (f32 1.0);
    DrawCylinderMesh;
    CallSetTransformations (v3 0.15 0.04 0.15) (f32 0) (f32 0) (f32 0)
      (v3 0 2.81 (-0.17));
    CallSetShaderTexture "black" (f32 1.0);
    DrawCylinderMesh;
    CallSetTransformations (v3 0.7 1.1 0.35) (f32 0) (f32 (-13)) (f32 0)
      (v3 1.5 2.92 0.7);
    CallSetShaderTexture "green" (f32 1.0);
    CallSetTextureUVScale (f32 1.0) (f32 1.0);
    DrawBoxMesh ].

(** The configuration steps of a log: for each draw call, the entries
    logged since the previous draw call (or since the start). *)
Fixpoint config_steps_from (current : list event) (l : list event)
    : list (list event) :=
  match l with
  | [] => []
  | e :: rest =>
      if is_draw e then current :: config_steps_from [] rest
      else config_steps_from (current ++ [e]) rest
  end.
Definition config_steps (l : list event) : list (list event) :=
  config_steps_from [] l.






Definition calls_setters (step : list event) : bool :=
  existsb (fun e =>
    match e with CallSetTransformations _ _ _ _ _ => true | _ => false end)
    step &&
  existsb (fun e =>
    match e with CallSetShaderTexture _ _ => true | _ => false end) step.

(** What [SetupSceneLights] logs. *)
Definition lights_log : list event :=
  [ setBoolValue "bUseLighting" true;
    setVec3Value "dirLight.direction"
      (mk_vec3 (f32 (-0.5)) (f32 (-1.0)) (f32 (-0.3)));
    setVec3Value "dirLight.ambient" (splat3 (f32 0.1));
    setVec3Value "dirLight.diffuse" (splat3 (f32 0.8));
    setVec3Value "dirLight.specular" (splat3 (f32 1.0));
    setVec3Value "pointLight.position"
      (mk_vec3 (f32 0.0) (f32 10.0) (f32 0.0));
    setVec3Value "pointLight.ambient" (splat3 (f32 0.05));
    setVec3Value "pointLight.diffuse" (splat3 (f32 0.5));
    setVec3Value "pointLight.specular" (splat3 (f32 0.7));
    setFloatValue "pointLight.constant" (f32 1.0);
    setFloatValue "pointLight.linear" (f32 0.09);
    setFloatValue "pointLight.quadratic" (f32 0.032) ].

End SceneLog.

(** ** The program around the two entry points *)

Section Program.
Context {glm : GlmOps}.

(** [RenderScene] called for [n] frames. *)
Fixpoint frames (n : nat) : M unit :=
  match n with
  | O => ret tt
  | S k => RenderScene;; frames k
  end.

(** The use the comments of the class describe: [PrepareScene] "called
    once at startup", then [RenderScene] "called every frame". *)
Definition program (n : nat) : M unit := PrepareScene;; frames n.

(** No image is uploaded after the first draw call of the log. *)
Fixpoint uploads_before_draws (l : list event) : bool :=
  match l with
  | [] => true
  | e :: rest =>
      if is_draw e then forallb (fun e' => negb (is_texture_upload e')) rest
      else uploads_before_draws rest
  end.

Definition not_draw (e : event) : bool := negb (is_draw e).
Definition not_texture_upload (e : event) : bool :=
  negb (is_texture_upload e).

(** The number of image uploads in a log. *)
Definition count_uploads (l : list event) : nat :=
  length (List.filter is_texture_upload l).

(** The log of a call of [CreateGLTexture] that succeeds. *)
Definition created_log_of (s : State) (filename : string) : list event :=
  match disk s filename with
  | Some image =>
      created_log filename image (uint32 (gl_name s (gl_generated s)))
  | None => []
  end.

(** The files [LoadSceneTextures] loads. *)
Definition scene_files : list string :=
  [ "textures/wood.jpg"; "textures/white_wood.jpg"; "textures/concrete.png";
    "textures/green.png"; "textures/gray.png"; "textures/black.png" ].

(** Every entry a computation logs satisfies [p], from whatever state it
    is run. *)
Definition logs_only {A} (p : event -> bool) (m : M A) : Prop :=
  forall s, forallb p (log_of (m s)) = true.

End Program.

(** The registry of [demo_three] in another object and environment. *)
Definition demo_three_elsewhere : State :=
  {| m_pShaderManager := Some 2%N;
     m_loadedTextures := m_loadedTextures demo_three;
     m_textureIDs := m_textureIDs demo_three;
     disk := fun _ => None; gl_name := fun _ => 0; gl_generated := 40 |}.


(** A fresh object whose disk holds one two-channel image and nothing
    else. *)
Definition grey_alpha_new : State :=
  SceneManager_new (Some 1%N)
    (fun f => if String.eqb f "textures/mask.png"
              then Some {| width := 8; height := 8; colorChannels := 2 |}
              else None)
    demo_names 0.

(** ** The registry as a list of tags *)

(** The entries below the counter, and their tags, in index order. *)
Definition loaded_entries (s : State) : list TEXTURE_INFO.t :=
  take (Z.to_nat (m_loadedTextures s)) (m_textureIDs s).
Definition loaded_tags (s : State) : list string :=
  map TEXTURE_INFO.tag (loaded_entries s).

(** The position of the first occurrence of [tag] in a list whose first
    element has position [i]; -1 if there is none. *)
Fixpoint tag_index_from (i : Z) (tag : string) (tags : list string) : Z :=
  match tags with
  | [] => -1
  | t :: rest =>
      if String.eqb t tag then i else tag_index_from (i + 1) tag rest
  end.
Definition tag_index (tag : string) (tags : list string) : Z :=
  tag_index_from 0 tag tags.

(** What [BindGLTextures] logs for a run of entries starting at unit [i]. *)
Fixpoint bind_log_from `{GlmOps} (i : Z) (entries : list TEXTURE_INFO.t)
    : list event :=
  match entries with
  | [] => []
  | e :: rest =>
      glActiveTexture i :: glBindTexture GL_TEXTURE_2D (TEXTURE_INFO.ID e) ::
      bind_log_from (i + 1) rest
  end.

(** What [DestroyGLTextures] logs: one deletion for each entry whose ID is
    not the sentinel. *)
Definition delete_log `{GlmOps} (entries : list TEXTURE_INFO.t) : list event :=
  flat_map (fun e =>
    if TEXTURE_INFO.ID e =? uint32 (-1) then []
    else [glDeleteTextures (TEXTURE_INFO.ID e)]) entries.

(** What [DestroyGLTextures] does to one entry, and the state it leaves. *)
Definition cleared (e : TEXTURE_INFO.t) : TEXTURE_INFO.t :=
  if TEXTURE_INFO.ID e =? uint32 (-1) then e else empty_entry.
Definition destroyed (s : State) : State :=
  {| m_pShaderManager := m_pShaderManager s;
     m_loadedTextures := 0;
     m_textureIDs :=
       map cleared (loaded_entries s) ++
       drop (Z.to_nat (m_loadedTextures s)) (m_textureIDs s);
     disk := disk s; gl_name := gl_name s;
     gl_generated := gl_generated s |}.

(** An object built with a null shader manager, and one whose array is
    not even well formed. *)
Definition null_new : State := SceneManager_new None demo_disk demo_names 0.
Definition null_broken : State :=
  {| m_pShaderManager := None; m_loadedTextures := 40; m_textureIDs := [];
     disk := demo_disk; gl_name := demo_names; gl_generated := 0 |}.

(** A computation that returns leaves the observation [f] of the state as
    it found it. *)
Definition keeps `{GlmOps} {A X : Type} (f : State -> X) (m : M A) : Prop :=
  forall s a s' l, m s = Done a s' l -> f s' = f s.

(** ** [LoadSceneTextures] as a list of loads *)

(** The files and tags of [LoadSceneTextures], in call order. *)
Definition scene_textures : list (string * string) :=
  [ ("textures/wood.jpg", "wood"); ("textures/white_wood.jpg", "whiteWood");
    ("textures/concrete.png", "concrete"); ("textures/green.png", "green");
    ("textures/gray.png", "gray"); ("textures/black.png", "black") ].

(** [CreateGLTexture] for each pair of the list, results ignored, then
    [k]. *)
Definition load_then `{GlmOps} {A} (fts : list (string * string)) (k : M A)
    : M A :=
  fold_right (fun ft rest => CreateGLTexture (fst ft) (snd ft);; rest) k fts.

(** The state in which a call of [CreateGLTexture] returns. *)
Definition after_load (filename tag : string) (s : State) : State :=
  match disk s filename with
  | None => s
  | Some image =>
      if (colorChannels image =? 3) || (colorChannels image =? 4)
      then texture_stored tag s
      else set_gl_generated (S (gl_generated s)) s
  end.
Definition after_loads (fts : list (string * string)) (s : State) : State :=
  fold_left (fun st ft => after_load (fst ft) (snd ft) st) fts s.

(** The tags of the pairs whose file loads, in order. *)
Definition tags_loaded (s : State) (fts : list (string * string))
    : list string :=
  map snd (List.filter (fun ft => negb (load_fails s (fst ft))) fts).

(** The sampler slots uploaded in a log, in order. *)
Definition sampler_slots `{GlmOps} (l : list event) : list Z :=
  flat_map (fun e =>
    match e with
    | setSampler2DValue _ slot => [slot]
    | _ => []
    end) l.

(** A fresh object on whose disk three of the six scene images load
    (wood and black with three channels, green with four), one has two
    channels (concrete) and two are missing (white_wood, gray). *)
Definition some_files_disk (filename : string) : option stbi_image :=
  if String.eqb filename "textures/wood.jpg"
  then Some {| width := 64; height := 64; colorChannels := 3 |}
  else if String.eqb filename "textures/green.png"
  then Some {| width := 32; height := 32; colorChannels := 4 |}
  else if String.eqb filename "textures/black.png"
  then Some {| width := 16; height := 16; colorChannels := 3 |}
  else if String.eqb filename "textures/concrete.png"
  then Some {| width := 8; height := 8; colorChannels := 2 |}
  else None.
Definition some_files_new : State :=
  SceneManager_new (Some 1%N) some_files_disk demo_names 0.
(** * Theorems *)

(** Unfold the monad's plumbing and compute. *)
Ltac run :=
  cbv beta iota zeta delta
    [mbind M_bind bind mret M_ret ret emit get modify undefined] in *.

Section SetTransformationsFacts.
Context {glm : GlmOps}.

Lemma SetTransformations_run (s : State) scaleXYZ X Y Z positionXYZ :
  SetTransformations scaleXYZ X Y Z positionXYZ s =
  Done tt s
    (CallSetTransformations scaleXYZ X Y Z positionXYZ ::
     match m_pShaderManager s with
     | Some _ => [setMat4Value "model" (model_matrix scaleXYZ X Y Z positionXYZ)]
     | None => []
     end).
Proof.
  unfold SetTransformations, shader_call; run.
  destruct (m_pShaderManager s) eqn:E; run; rewrite ?E; reflexivity.
Qed.

Lemma model_matrix_product scaleXYZ X Y Z positionXYZ :
  product_from_left (model_factors scaleXYZ X Y Z positionXYZ) =
  Some (model_matrix scaleXYZ X Y Z positionXYZ).
Proof. reflexivity. Qed.

(** C1: with a non-null shader manager, [SetTransformations] uploads to the
    "model" uniform exactly one matrix, the product
    translate(position) * Rz(radians Z) * Ry(radians Y) * Rx(radians X)
    * scale(scale) taken in that order from the left, each angle passed
    through [radians]; nothing else is uploaded and the object is unchanged. *)
Theorem SetTransformations_uploads_model (s : State) (sm : N)
    (scaleXYZ : vec3 float) (X Y Z : float) (positionXYZ : vec3 float) :
  m_pShaderManager s = Some sm ->
  exists model,
    product_from_left
      [ glm_translate positionXYZ;
        Rz (glm_radians Z); Ry (glm_radians Y); Rx (glm_radians X);
        glm_scale scaleXYZ ] = Some model /\
    SetTransformations scaleXYZ X Y Z positionXYZ s =
    Done tt s [ CallSetTransformations scaleXYZ X Y Z positionXYZ;
                setMat4Value "model" model ].
Proof.
  intros Hsm. eexists; split; [reflexivity|].
  rewrite SetTransformations_run, Hsm. reflexivity.
Qed.

End SetTransformationsFacts.

Lemma SetTransformations_uploads_model_witness :
  exists model,
    product_from_left
      [ glm_translate (v3 0.0 (-0.5) 0.0);
        Rz (glm_radians (f32 0)); Ry (glm_radians (f32 16));
        Rx (glm_radians (f32 (-90)));
        glm_scale (v3 50.0 1.0 50.0) ] = Some model /\
    SetTransformations (glm := sym_glm) (v3 50.0 1.0 50.0)
      (f32 (-90)) (f32 16) (f32 0) (v3 0.0 (-0.5) 0.0) demo_new =
    Done tt demo_new
      [ CallSetTransformations (v3 50.0 1.0 50.0) (f32 (-90)) (f32 16) (f32 0)
          (v3 0.0 (-0.5) 0.0);
        setMat4Value "model" model ].
Proof.
  apply (SetTransformations_uploads_model (glm := sym_glm) demo_new 1%N).
  reflexivity.
Defined.

(** C5 (as the code has it): the matrix uploaded by [SetTransformations] is
    a product of five factors - the translation, the three rotations and
    the scale - joined by four multiplications. *)
Theorem model_matrix_five_factors (s : State) (sm : N)
    (scaleXYZ : vec3 sfloat) (X Y Z : sfloat) (positionXYZ : vec3 sfloat) :
  m_pShaderManager s = Some sm ->
  exists model,
    model_uploads
      (log_of (SetTransformations (glm := sym_glm)
                 scaleXYZ X Y Z positionXYZ s)) = [model] /\
    factors model = model_factors (glm := sym_glm) scaleXYZ X Y Z positionXYZ /\
    length (factors model) = 5%nat /\
    multiplications model = 4%nat.
Proof.
  intros Hsm. rewrite SetTransformations_run, Hsm.
  eexists; split; [reflexivity|]. repeat split.
Qed.

Lemma model_matrix_five_factors_witness :
  exists model,
    model_uploads
      (log_of (SetTransformations (glm := sym_glm) (v3 10.0 4.0 4.0)
                 (f32 0.0) (f32 0.0) (f32 0.0) (v3 0.0 2.0 0.0) demo_new))
    = [model] /\
    factors model =
      model_factors (glm := sym_glm) (v3 10.0 4.0 4.0)
        (f32 0.0) (f32 0.0) (f32 0.0) (v3 0.0 2.0 0.0) /\
    length (factors model) = 5%nat /\
    multiplications model = 4%nat.
Proof.
  apply (model_matrix_five_factors demo_new 1%N). reflexivity.
Defined.

(** C5 as stated fails: for the island base of the scene the uploaded
    matrix does not consist of four factors. *)
Lemma model_matrix_four_factors_counterexample :
  ~ (forall model,
       In model
         (model_uploads
            (log_of (SetTransformations (glm := sym_glm) (v3 10.0 4.0 4.0)
                       (f32 0.0) (f32 0.0) (f32 0.0) (v3 0.0 2.0 0.0)
                       demo_new))) ->
       length (factors model) = 4%nat).
Proof.
  intros H.
  specialize (H _ (or_introl eq_refl)). discriminate H.
Qed.

(** ** The registry *)

Section RegistryFacts.
Context {glm : GlmOps}.

Lemma read_slot_in_bounds (s : State) (i : Z) :
  length (m_textureIDs s) = 16%nat -> 0 <= i < 16 ->
  exists e, m_textureIDs s !! Z.to_nat i = Some e /\
            read_slot i s = Done e s [].
Proof.
  intros Hlen Hi. unfold read_slot, in_bounds.
  destruct (lookup_lt_is_Some_2 (m_textureIDs s) (Z.to_nat i)) as [e He];
    [lia|].
  exists e. rewrite He.
  replace (0 <=? i) with true by (symmetry; apply Z.leb_le; lia).
  replace (i <? 16) with true by (symmetry; apply Z.ltb_lt; lia).
  auto.
Qed.

Lemma read_slot_out_of_bounds (s : State) (i : Z) :
  ~ (0 <= i < 16) -> read_slot i s = Undefined (IndexOutOfBounds i).
Proof.
  intros Hi. unfold read_slot, in_bounds.
  destruct (0 <=? i) eqn:E1; destruct (i <? 16) eqn:E2; cbn; try reflexivity.
  apply Z.leb_le in E1. apply Z.ltb_lt in E2. lia.
Qed.

(** The search loop from index [i] over [count] entries: it ends without
    touching the state, returns the first match in [i, i+count) or -1, and
    gives the same answer in any state with the same entries there. *)
Lemma FindTextureSlot_from_spec (count : nat) :
  forall (i : Z) (s : State) (tag : string),
    length (m_textureIDs s) = 16%nat ->
    0 <= i -> i + Z.of_nat count <= 16 ->
    exists r,
      FindTextureSlot_from count i tag s = Done r s [] /\
      ((r = -1 /\ forall j, i <= j < i + Z.of_nat count -> ~ tag_at s j tag) \/
       (i <= r < i + Z.of_nat count /\ tag_at s r tag /\
        forall j, i <= j < r -> ~ tag_at s j tag)) /\
      (forall s', length (m_textureIDs s') = 16%nat ->
         (forall j, i <= j < i + Z.of_nat count ->
            m_textureIDs s' !! Z.to_nat j = m_textureIDs s !! Z.to_nat j) ->
         FindTextureSlot_from count i tag s' = Done r s' []).
Proof.
  induction count as [|count IH]; intros i s tag Hlen Hi Hend.
  - exists (-1). cbn. split; [reflexivity|]. split; [|reflexivity].
    left. split; [reflexivity|]. intros j Hj. lia.
  - destruct (read_slot_in_bounds s i Hlen) as (e & He & Hread); [lia|].
    cbn [FindTextureSlot_from]. run. rewrite Hread.
    destruct (String.eqb (TEXTURE_INFO.tag e) tag) eqn:Etag.
    + apply String.eqb_eq in Etag.
      exists i. split; [reflexivity|]. split.
      * right. split; [lia|]. split; [exists e; auto|]. intros j Hj. lia.
      * intros s' Hlen' Hsame.
        destruct (read_slot_in_bounds s' i Hlen') as (e' & He' & Hread');
          [lia|].
        rewrite Hread'. rewrite Hsame in He' by lia.
        assert (e' = e) by congruence. subst e'.
        apply String.eqb_eq in Etag. rewrite Etag. reflexivity.
    + apply String.eqb_neq in Etag.
      destruct (IH (i + 1) s tag Hlen) as (r & Hrun & Hchar & Hframe);
        [lia|lia|].
      exists r. rewrite Hrun. split; [reflexivity|].
      assert (Hnot : ~ tag_at s i tag).
      { intros (e0 & He0 & Ht). congruence. }
      split.
      * destruct Hchar as [[-> Hnone] | (Hr & Hat & Hbefore)].
        -- left. split; [reflexivity|]. intros j Hj.
           destruct (Z.eq_dec j i) as [->|]; [assumption|apply Hnone; lia].
        -- right. split; [lia|]. split; [assumption|]. intros j Hj.
           destruct (Z.eq_dec j i) as [->|]; [assumption|apply Hbefore; lia].
      * intros s' Hlen' Hsame.
        destruct (read_slot_in_bounds s' i Hlen') as (e' & He' & Hread');
          [lia|].
        rewrite Hread'. rewrite Hsame in He' by lia.
        assert (e' = e) by congruence. subst e'.
        apply String.eqb_neq in Etag. rewrite Etag.
        rewrite (Hframe s' Hlen'); [reflexivity|].
        intros j Hj. apply Hsame. lia.
Qed.

(** The search as a whole, in terms of the slot it answers with. *)
Lemma FindTextureSlot_correct (s : State) (tag : string) :
  valid_registry s ->
  FindTextureSlot tag s = Done (slot_of tag s) s [] /\
  ((slot_of tag s = -1 /\
    forall i, 0 <= i < m_loadedTextures s -> ~ tag_at s i tag) \/
   (0 <= slot_of tag s < m_loadedTextures s /\ tag_at s (slot_of tag s) tag)) /\
  (forall s', valid_registry s' -> same_loaded_entries s s' ->
     slot_of tag s' = slot_of tag s).
Proof.
  intros [Hlen Hn].
  destruct (FindTextureSlot_from_spec (Z.to_nat (m_loadedTextures s)) 0 s tag
              Hlen) as (r & Hrun & Hchar & Hframe); [lia|lia|].
  rewrite Z2Nat.id in Hchar, Hframe by lia. rewrite Z.add_0_l in Hchar, Hframe.
  assert (Hfind : FindTextureSlot tag s = Done r s []).
  { unfold FindTextureSlot. run. rewrite Hrun. reflexivity. }
  assert (Hslot : slot_of tag s = r) by (unfold slot_of; rewrite Hfind; reflexivity).
  rewrite Hslot. split; [exact Hfind|]. split.
  - destruct Hchar as [[-> Hnone] | (Hr & Hat & _)]; [left|right]; auto.
  - intros s' [Hlen' _] [Hcount Hsame]. unfold slot_of, FindTextureSlot. run.
    rewrite Hcount, (Hframe s' Hlen' Hsame). reflexivity.
Qed.

(** C3: in a state whose counter is between 0 and 16, [FindTextureSlot]
    returns the smallest index below [m_loadedTextures] whose entry carries
    the tag, and -1 if there is none; the state is returned unchanged and no
    call is made; the answer is the same in every state that has the same
    counter and the same entries below it, whatever the entries at or above
    [m_loadedTextures] hold. *)
Theorem FindTextureSlot_spec (s : State) (tag : string) :
  valid_registry s ->
  exists r,
    FindTextureSlot tag s = Done r s [] /\
    ((r = -1 /\
      forall i, 0 <= i < m_loadedTextures s -> ~ tag_at s i tag) \/
     (0 <= r < m_loadedTextures s /\ tag_at s r tag /\
      forall j, 0 <= j < r -> ~ tag_at s j tag)) /\
    (forall s', valid_registry s' -> same_loaded_entries s s' ->
       FindTextureSlot tag s' = Done r s' []).
Proof.
  intros [Hlen Hn].
  destruct (FindTextureSlot_from_spec (Z.to_nat (m_loadedTextures s)) 0 s tag
              Hlen) as (r & Hrun & Hchar & Hframe); [lia|lia|].
  rewrite Z2Nat.id in Hchar, Hframe by lia. rewrite Z.add_0_l in Hchar, Hframe.
  exists r. unfold FindTextureSlot. run. rewrite Hrun.
  split; [reflexivity|]. split; [exact Hchar|].
  intros s' [Hlen' _] [Hcount Hsame]. rewrite Hcount.
  rewrite (Hframe s' Hlen' Hsame). reflexivity.
Qed.

End RegistryFacts.

Lemma demo_three_valid : valid_registry demo_three.
Proof. split; [reflexivity|cbn; lia]. Qed.

Lemma FindTextureSlot_spec_witness :
  valid_registry demo_three /\
  exists r,
    FindTextureSlot (glm := sym_glm) "gray" demo_three = Done r demo_three [] /\
    ((r = -1 /\
      forall i, 0 <= i < m_loadedTextures demo_three ->
        ~ tag_at demo_three i "gray") \/
     (0 <= r < m_loadedTextures demo_three /\ tag_at demo_three r "gray" /\
      forall j, 0 <= j < r -> ~ tag_at demo_three j "gray")) /\
    (forall s', valid_registry s' -> same_loaded_entries demo_three s' ->
       FindTextureSlot (glm := sym_glm) "gray" s' = Done r s' []).
Proof.
  split; [exact demo_three_valid|].
  apply (FindTextureSlot_spec (glm := sym_glm) demo_three "gray").
  split; [reflexivity|cbn; lia].
Defined.

Section SetShaderTextureFacts.
Context {glm : GlmOps}.

Lemma shader_call_run (s : State) (sm : N) (e : event) :
  m_pShaderManager s = Some sm -> shader_call e s = Done tt s [e].
Proof. intros E. unfold shader_call. run. rewrite E. reflexivity. Qed.

Lemma shader_call_null (s : State) (e : event) :
  m_pShaderManager s = None -> shader_call e s = Undefined NullShaderManager.
Proof. intros E. unfold shader_call. run. rewrite E. reflexivity. Qed.

Lemma FindTextureSlot_run (s : State) (tag : string) :
  valid_registry s -> FindTextureSlot tag s = Done (slot_of tag s) s [].
Proof.
  intros Hv. apply (FindTextureSlot_correct s tag Hv).
Qed.

Lemma SetShaderTexture_run (s : State) (tag : string) (scale : float) :
  valid_registry s ->
  SetShaderTexture tag scale s =
  Done tt s (texture_log (m_pShaderManager s) (slot_of tag s) tag scale).
Proof.
  intros Hv. unfold SetShaderTexture, texture_log. run.
  destruct (m_pShaderManager s) as [sm|] eqn:E; [|reflexivity].
  repeat (rewrite ?(shader_call_run s sm), ?(FindTextureSlot_run s tag)
            by assumption; run).
  reflexivity.
Qed.

(** C10: for a tag that no loaded entry carries, [SetShaderTexture] with a
    non-null shader manager sets "bUseTexture" to true (1), uploads sampler
    slot -1 and the UV scale, prints nothing, returns, and leaves the whole
    state - the registry included - as it was. *)
Theorem SetShaderTexture_unknown_tag (s : State) (sm : N) (tag : string)
    (scale : float) :
  valid_registry s ->
  m_pShaderManager s = Some sm ->
  (forall i, 0 <= i < m_loadedTextures s -> ~ tag_at s i tag) ->
  SetShaderTexture tag scale s =
  Done tt s
    [ CallSetShaderTexture tag scale;
      setIntValue "bUseTexture" 1;
      setSampler2DValue "objectTexture" (-1);
      setVec2Value "UVscale" (mk_vec2 scale scale) ].
Proof.
  intros Hv Hsm Hnone. rewrite (SetShaderTexture_run s tag scale Hv), Hsm.
  destruct (FindTextureSlot_correct s tag Hv) as (_ & Hchar & _).
  unfold texture_log.
  destruct Hchar as [[-> _] | (Hr & Hat)]; [reflexivity|].
  exfalso. exact (Hnone _ Hr Hat).
Qed.

End SetShaderTextureFacts.

Lemma demo_three_no_marble :
  forall i, 0 <= i < m_loadedTextures demo_three ->
    ~ tag_at demo_three i "marble".
Proof.
  intros i Hi (e & He & Ht). cbn in Hi.
  assert (i = 0 \/ i = 1 \/ i = 2) as [-> | [-> | ->]] by lia;
    cbn in He; inversion He; subst e; discriminate Ht.
Qed.

Lemma SetShaderTexture_unknown_tag_witness :
  SetShaderTexture (glm := sym_glm) "marble" (SLit 2.0) demo_three =
  Done tt demo_three
    [ CallSetShaderTexture "marble" (SLit 2.0);
      setIntValue "bUseTexture" 1;
      setSampler2DValue "objectTexture" (-1);
      setVec2Value "UVscale" (mk_vec2 (SLit 2.0) (SLit 2.0)) ].
Proof.
  apply (SetShaderTexture_unknown_tag (glm := sym_glm) demo_three 1%N).
  - exact demo_three_valid.
  - reflexivity.
  - exact demo_three_no_marble.
Defined.

(** ** Loading textures *)

Section CreateGLTextureFacts.
Context {glm : GlmOps}.

Lemma write_slot_run (s : State) (i : Z)
    (f : TEXTURE_INFO.t -> TEXTURE_INFO.t) (e : TEXTURE_INFO.t) :
  in_bounds i = true ->
  m_textureIDs s !! Z.to_nat i = Some e ->
  write_slot i f s =
  Done tt (set_textureIDs (<[Z.to_nat i := f e]> (m_textureIDs s)) s) [].
Proof.
  intros Hi He. unfold write_slot, read_slot. run. rewrite Hi, He.
  reflexivity.
Qed.

Lemma write_slot_undefined (s : State) (i : Z)
    (f : TEXTURE_INFO.t -> TEXTURE_INFO.t) :
  in_bounds i = false \/ m_textureIDs s !! Z.to_nat i = None ->
  write_slot i f s = Undefined (IndexOutOfBounds i).
Proof.
  intros H. unfold write_slot, read_slot. run.
  destruct (in_bounds i); [|reflexivity].
  destruct H as [H|H]; [discriminate|]. rewrite H. reflexivity.
Qed.

Lemma store_texture_run (s : State) (textureID : Z) (tag : string)
    (e : TEXTURE_INFO.t) :
  in_bounds (m_loadedTextures s) = true ->
  m_textureIDs s !! Z.to_nat (m_loadedTextures s) = Some e ->
  store_texture textureID tag s =
  Done tt
    (set_loadedTextures (m_loadedTextures s + 1)
       (set_textureIDs
          (<[Z.to_nat (m_loadedTextures s) := TEXTURE_INFO.mk tag textureID]>
             (m_textureIDs s)) s)) [].
Proof.
  intros Hi He. unfold store_texture. run.
  rewrite (write_slot_run s _ _ e Hi He). run.
  erewrite write_slot_run; [|exact Hi|]; cycle 1.
  { cbn [m_textureIDs set_textureIDs]. apply list_lookup_insert_eq.
    eapply lookup_lt_Some, He. }
  run. cbn [m_textureIDs set_textureIDs]. rewrite list_insert_insert_eq.
  reflexivity.
Qed.

Lemma store_texture_undefined (s : State) (textureID : Z) (tag : string) :
  in_bounds (m_loadedTextures s) = false \/
  m_textureIDs s !! Z.to_nat (m_loadedTextures s) = None ->
  store_texture textureID tag s =
  Undefined (IndexOutOfBounds (m_loadedTextures s)).
Proof.
  intros H. unfold store_texture. run.
  rewrite (write_slot_undefined s _ _ H). reflexivity.
Qed.

Lemma CreateGLTexture_cases (s : State) (filename tag : string) :
  match disk s filename with
  | None =>
      CreateGLTexture filename tag s =
      Done false s
        [ stbi_set_flip_vertically_on_load true; stbi_load filename;
          cout (CouldNotLoad filename) ]
  | Some image =>
      if (colorChannels image =? 3) || (colorChannels image =? 4) then
        if in_bounds (m_loadedTextures s) then
          match m_textureIDs s !! Z.to_nat (m_loadedTextures s) with
          | Some _ =>
              CreateGLTexture filename tag s =
              Done true (texture_stored tag s)
                (created_log filename image
                   (uint32 (gl_name s (gl_generated s))))
          | None =>
              CreateGLTexture filename tag s =
              Undefined (IndexOutOfBounds (m_loadedTextures s))
          end
        else
          CreateGLTexture filename tag s =
          Undefined (IndexOutOfBounds (m_loadedTextures s))
      else
        exists l,
          CreateGLTexture filename tag s =
          Done false (set_gl_generated (S (gl_generated s)) s) l
  end.
Proof.
  unfold CreateGLTexture, gen_texture. run.
  destruct (disk s filename) as [image|]; [|reflexivity].
  set (s1 := set_gl_generated (S (gl_generated s)) s).
  destruct (colorChannels image =? 3) eqn:E3;
    [|destruct (colorChannels image =? 4) eqn:E4]; cbn [orb].
  3: { eexists. reflexivity. }
  all: destruct (in_bounds (m_loadedTextures s)) eqn:Ein.
  all: try destruct (m_textureIDs s !! Z.to_nat (m_loadedTextures s))
         as [e|] eqn:Elook.
  all: try (rewrite (store_texture_run s1 _ _ e Ein Elook); run;
            unfold created_log; rewrite E3; reflexivity).
  all: rewrite (store_texture_undefined s1); [reflexivity|auto].
Qed.

(** C4: [CreateGLTexture] returns false exactly when [stbi_load] gives no
    image or the image has neither 3 nor 4 channels; a false return leaves
    the counter and every array entry as they were; a true return moves the
    counter up by one and leaves the given tag in the entry at the old
    counter; and with a loadable image and room in the array the call does
    return true. *)
Theorem CreateGLTexture_spec (s : State) (filename tag : string) :
  ((exists s' l, CreateGLTexture filename tag s = Done false s' l) <->
   load_fails s filename = true) /\
  (forall s' l, CreateGLTexture filename tag s = Done false s' l ->
     registry s' = registry s) /\
  (forall s' l, CreateGLTexture filename tag s = Done true s' l ->
     load_fails s filename = false /\
     m_loadedTextures s' = m_loadedTextures s + 1 /\
     tag_at s' (m_loadedTextures s) tag) /\
  (valid_registry s -> m_loadedTextures s < 16 ->
   load_fails s filename = false ->
   exists s' l, CreateGLTexture filename tag s = Done true s' l).
Proof.
  pose proof (CreateGLTexture_cases s filename tag) as Hc.
  unfold load_fails.
  destruct (disk s filename) as [image|].
  2: { rewrite Hc. repeat split; try (intros; discriminate); eauto.
       intros s' l [= <- _]. reflexivity. }
  destruct ((colorChannels image =? 3) || (colorChannels image =? 4)); cbn [negb].
  2: { destruct Hc as [l0 Hc]. rewrite Hc.
       repeat split; try (intros; discriminate); eauto.
       intros s' l [= <- _]. reflexivity. }
  destruct (in_bounds (m_loadedTextures s)) eqn:Ein.
  2: { rewrite Hc. repeat split; try (intros; discriminate).
       - intros (s' & l & H). discriminate.
       - intros [_ Hn] Hlt _. exfalso. unfold in_bounds in Ein.
         apply andb_false_iff in Ein as [Ein|Ein];
           [apply Z.leb_gt in Ein|apply Z.ltb_ge in Ein]; lia. }
  destruct (m_textureIDs s !! Z.to_nat (m_loadedTextures s)) as [e|] eqn:El.
  2: { rewrite Hc. repeat split; try (intros; discriminate).
       - intros (s' & l & H). discriminate.
       - intros [Hlen Hn] Hlt _. exfalso.
         apply lookup_ge_None in El. lia. }
  rewrite Hc.
  repeat split; try (intros; discriminate); eauto.
  - intros (s' & l & H). discriminate.
  - injection H as <- _. reflexivity.
  - injection H as <- _. exists (TEXTURE_INFO.mk tag
      (uint32 (gl_name s (gl_generated s)))).
    split; [|reflexivity]. cbn [texture_stored m_textureIDs].
    apply list_lookup_insert_eq. eapply lookup_lt_Some, El.
Qed.

End CreateGLTextureFacts.

(** ** Reachable states *)

Section ReachableFacts.
Context {glm : GlmOps}.

Lemma bind_Done_inv {A B} (m : M A) (k : A -> M B) (s : State)
    (b : B) (s2 : State) (l : list event) :
  (m ≫= k) s = Done b s2 l ->
  exists a s1 l1 l2,
    m s = Done a s1 l1 /\ k a s1 = Done b s2 l2 /\ l = (l1 ++ l2)%list.
Proof.
  run. destruct (m s) as [a s1 l1|u]; [|discriminate].
  destruct (k a s1) as [b' s2' l2|u] eqn:Ek; [|discriminate].
  intros [= -> -> <-]. eauto 8.
Qed.

Lemma DestroyGLTextures_body_run (s : State) (i : Z) :
  length (m_textureIDs s) = 16%nat -> 0 <= i < 16 ->
  exists e l,
    m_textureIDs s !! Z.to_nat i = Some e /\
    DestroyGLTextures_body i s =
    Done tt
      (set_textureIDs
         (if TEXTURE_INFO.ID e =? uint32 (-1) then m_textureIDs s
          else <[Z.to_nat i := empty_entry]> (m_textureIDs s)) s) l.
Proof.
  intros Hlen Hi.
  destruct (read_slot_in_bounds s i Hlen Hi) as (e & He & Hread).
  assert (Hb : in_bounds i = true).
  { unfold in_bounds. apply andb_true_iff.
    split; [apply Z.leb_le|apply Z.ltb_lt]; lia. }
  exists e. unfold DestroyGLTextures_body. run. rewrite Hread.
  destruct (TEXTURE_INFO.ID e =? uint32 (-1)) eqn:Eid; cbn [negb].
  - eexists. split; [exact He|]. destruct s; reflexivity.
  - rewrite (write_slot_run s _ _ e Hb He). run.
    erewrite write_slot_run; [|exact Hb|]; cycle 1.
    { cbn [m_textureIDs set_textureIDs]. apply list_lookup_insert_eq.
      eapply lookup_lt_Some, He. }
    run. cbn [m_textureIDs set_textureIDs]. rewrite list_insert_insert_eq.
    eexists. split; [exact He|]. reflexivity.
Qed.

Lemma DestroyGLTextures_loop (count : nat) :
  forall (i : Z) (s : State),
    length (m_textureIDs s) = 16%nat ->
    0 <= i -> i + Z.of_nat count <= 16 ->
    exists s' l,
      for_loop count i DestroyGLTextures_body s = Done tt s' l /\
      same_but_array s s' /\
      length (m_textureIDs s') = 16%nat /\
      forall j e, 0 <= j < 16 ->
        m_textureIDs s !! Z.to_nat j = Some e ->
        m_textureIDs s' !! Z.to_nat j =
        Some (if ((i <=? j) && (j <? i + Z.of_nat count) &&
                  negb (TEXTURE_INFO.ID e =? uint32 (-1)))%bool
              then empty_entry else e).
Proof.
  induction count as [|count IH]; intros i s Hlen Hi Hend.
  - exists s, []. cbn [for_loop]. split; [reflexivity|].
    split; [repeat split|]. split; [assumption|].
    intros j e Hj He. rewrite He. f_equal.
    replace (j <? i + Z.of_nat 0) with (j <? i) by (f_equal; lia).
    destruct (i <=? j) eqn:E1; destruct (j <? i) eqn:E2;
      try reflexivity.
    apply Z.leb_le in E1. apply Z.ltb_lt in E2. lia.
  - destruct (DestroyGLTextures_body_run s i Hlen) as (e0 & l0 & He0 & Hbody);
      [lia|].
    set (s1 := set_textureIDs
                 (if TEXTURE_INFO.ID e0 =? uint32 (-1) then m_textureIDs s
                  else <[Z.to_nat i := empty_entry]> (m_textureIDs s)) s)
      in Hbody.
    assert (Hlen1 : length (m_textureIDs s1) = 16%nat).
    { subst s1. cbn [m_textureIDs set_textureIDs].
      destruct (TEXTURE_INFO.ID e0 =? uint32 (-1));
        rewrite ?length_insert; assumption. }
    destruct (IH (i + 1) s1 Hlen1) as (s' & l' & Hrun & Hsame & Hlen' & Harr);
      [lia|lia|].
    exists s', (l0 ++ l')%list. cbn [for_loop]. run.
    rewrite Hbody, Hrun. split; [reflexivity|].
    split; [exact Hsame|]. split; [exact Hlen'|].
    intros j e Hj He.
    destruct (Z.eq_dec j i) as [->|Hne].
    + assert (e = e0) by congruence. subst e0.
      assert (H1 : m_textureIDs s1 !! Z.to_nat i =
                   Some (if TEXTURE_INFO.ID e =? uint32 (-1) then e
                         else empty_entry)).
      { subst s1. cbn [m_textureIDs set_textureIDs].
        destruct (TEXTURE_INFO.ID e =? uint32 (-1)); [exact He|].
        apply list_lookup_insert_eq. lia. }
      rewrite (Harr i _ Hj H1).
      replace (i + 1 <=? i) with false by (symmetry; apply Z.leb_gt; lia).
      replace (i <=? i) with true by (symmetry; apply Z.leb_le; lia).
      replace (i <? i + Z.of_nat (S count)) with true
        by (symmetry; apply Z.ltb_lt; lia).
      cbn [andb]. destruct (TEXTURE_INFO.ID e =? uint32 (-1)); reflexivity.
    + assert (H1 : m_textureIDs s1 !! Z.to_nat j = Some e).
      { subst s1. cbn [m_textureIDs set_textureIDs].
        destruct (TEXTURE_INFO.ID e0 =? uint32 (-1)); [exact He|].
        rewrite list_lookup_insert_ne by lia. exact He. }
      rewrite (Harr j _ Hj H1). f_equal.
      replace (j <? i + 1 + Z.of_nat count)
        with (j <? i + Z.of_nat (S count)) by (f_equal; lia).
      replace (i + 1 <=? j) with (i <=? j); [reflexivity|].
      destruct (i <=? j) eqn:E1; symmetry;
        [apply Z.leb_le in E1; apply Z.leb_le|
         apply Z.leb_gt in E1; apply Z.leb_gt]; lia.
Qed.

Lemma DestroyGLTextures_run (s : State) :
  valid_registry s ->
  exists s' l,
    DestroyGLTextures s = Done tt s' l /\
    m_pShaderManager s' = m_pShaderManager s /\
    disk s' = disk s /\ gl_name s' = gl_name s /\
    gl_generated s' = gl_generated s /\
    m_loadedTextures s' = 0 /\
    length (m_textureIDs s') = 16%nat /\
    forall j e, 0 <= j < 16 ->
      m_textureIDs s !! Z.to_nat j = Some e ->
      m_textureIDs s' !! Z.to_nat j =
      Some (if ((j <? m_loadedTextures s) &&
                negb (TEXTURE_INFO.ID e =? uint32 (-1)))%bool
            then empty_entry else e).
Proof.
  intros [Hlen Hn].
  destruct (DestroyGLTextures_loop (Z.to_nat (m_loadedTextures s)) 0 s Hlen)
    as (s1 & l & Hrun & (Hsm & Hcount & Hdisk & Hname & Hgen) & Hlen1 & Harr);
    [lia|lia|].
  exists (set_loadedTextures 0 s1), l. unfold DestroyGLTextures. run.
  rewrite Hrun. rewrite !app_nil_r. cbn [app].
  repeat split; try assumption.
  intros j e Hj He. cbn [m_textureIDs set_loadedTextures].
  rewrite (Harr j e Hj He). rewrite Z2Nat.id by lia. rewrite Z.add_0_l.
  replace (0 <=? j) with true by (symmetry; apply Z.leb_le; lia).
  reflexivity.
Qed.

Lemma in_bounds_true (i : Z) : in_bounds i = true <-> 0 <= i < 16.
Proof.
  unfold in_bounds. rewrite andb_true_iff, Z.leb_le, Z.ltb_lt. reflexivity.
Qed.

(** One call keeps the registry well formed, does not touch the name
    supply, and keeps the two halves of the prefix invariant when the
    supply never yields the sentinel. *)
Lemma step_preserves (s s' : State) :
  valid_registry s -> step s s' ->
  valid_registry s' /\ gl_name s' = gl_name s /\
  (names_never_sentinel s -> prefix_invariant s -> loaded_ids_real s ->
   prefix_invariant s' /\ loaded_ids_real s').
Proof.
  intros Hv Hstep. pose proof Hv as [Hlen Hn].
  destruct Hstep as [s filename tag b s' l Hrun|s s' l Hrun].
  - pose proof (CreateGLTexture_cases s filename tag) as Hc.
    destruct (disk s filename) as [image|].
    2: { rewrite Hc in Hrun. injection Hrun as _ <- _. auto. }
    destruct ((colorChannels image =? 3) || (colorChannels image =? 4)).
    2: { destruct Hc as [l0 Hc]. rewrite Hc in Hrun.
         injection Hrun as _ <- _. auto. }
    destruct (in_bounds (m_loadedTextures s)) eqn:Ein;
      [|rewrite Hc in Hrun; discriminate].
    destruct (m_textureIDs s !! Z.to_nat (m_loadedTextures s)) as [e0|] eqn:El;
      [|rewrite Hc in Hrun; discriminate].
    rewrite Hc in Hrun. injection Hrun as _ <- _.
    apply in_bounds_true in Ein.
    split; [|split; [reflexivity|]].
    + split; cbn [texture_stored m_textureIDs m_loadedTextures];
        [rewrite length_insert; assumption|lia].
    + intros Hnames Hpre Hids.
      split; unfold prefix_invariant, loaded_ids_real;
        cbn [texture_stored m_textureIDs m_loadedTextures].
      * intros i Hi. rewrite list_lookup_insert_ne by lia. apply Hpre. lia.
      * intros i e Hi He.
        destruct (Z.eq_dec i (m_loadedTextures s)) as [->|Hne].
        -- rewrite list_lookup_insert_eq in He by lia.
           injection He as <-. apply Hnames.
        -- rewrite list_lookup_insert_ne in He by lia.
           apply (Hids i e); [lia|assumption].
  - destruct (DestroyGLTextures_run s Hv)
      as (s1 & l1 & Hrun1 & _ & _ & Hname & _ & Hcount & Hlen1 & Harr).
    rewrite Hrun1 in Hrun. injection Hrun as <- _.
    split; [split; [assumption|lia]|]. split; [assumption|].
    intros Hnames Hpre Hids. split.
    + intros i Hi. rewrite Hcount in Hi.
      destruct (lookup_lt_is_Some_2 (m_textureIDs s) (Z.to_nat i))
        as [e He]; [lia|].
      rewrite (Harr i e Hi He). f_equal.
      destruct (Z.ltb_spec i (m_loadedTextures s)) as [Hlt|Hge]; cbn [andb].
      * destruct (Z.eqb_spec (TEXTURE_INFO.ID e) (uint32 (-1))) as [Heq|];
          [|reflexivity].
        exfalso. apply (Hids i e); [lia|assumption|assumption].
      * rewrite Hpre in He by lia. congruence.
    + intros i e Hi. lia.
Qed.

Lemma reachable_valid (s : State) : reachable s -> valid_registry s.
Proof.
  induction 1 as [p d names k|s s' Hreach IH Hstep].
  - split; [reflexivity|cbn; lia].
  - apply (step_preserves s s' IH Hstep).
Qed.

Lemma reachable_registry_inv (s : State) :
  reachable s -> names_never_sentinel s ->
  prefix_invariant s /\ loaded_ids_real s.
Proof.
  induction 1 as [p d names k|s s' Hreach IH Hstep]; intros Hnames.
  - split.
    + intros i Hi. cbn [SceneManager_new m_textureIDs].
      apply lookup_replicate_2. lia.
    + intros i e Hi. cbn in Hi. lia.
  - pose proof (reachable_valid s Hreach) as Hv.
    destruct (step_preserves s s' Hv Hstep) as (_ & Hname & Hpres).
    assert (Hnames0 : names_never_sentinel s).
    { intros k. rewrite <- Hname. apply Hnames. }
    destruct (IH Hnames0) as [Hpre Hids]. apply Hpres; assumption.
Qed.

(** C9 (as the code has it): in every state reached from the constructor by
    defined calls of [CreateGLTexture] and [DestroyGLTextures], provided
    [glGenTextures] never hands out the name (uint32_t)-1, the counter is
    between 0 and 16, every entry at an index at or above it holds the
    tag "/0" and the ID (uint32_t)-1, and every entry at an index below it
    is occupied, holding an ID other than (uint32_t)-1: the counter counts
    exactly the occupied prefix of the sixteen entries. *)
Theorem registry_prefix_invariant (s : State) :
  reachable s -> names_never_sentinel s ->
  0 <= m_loadedTextures s <= 16 /\
  (forall i, m_loadedTextures s <= i < 16 ->
     m_textureIDs s !! Z.to_nat i =
     Some (TEXTURE_INFO.mk "/0" (uint32 (-1)))) /\
  (forall i, 0 <= i < m_loadedTextures s ->
     exists e,
       m_textureIDs s !! Z.to_nat i = Some e /\
       TEXTURE_INFO.ID e <> uint32 (-1)).
Proof.
  intros Hreach Hnames.
  pose proof (reachable_valid s Hreach) as [Hlen Hn].
  destruct (reachable_registry_inv s Hreach Hnames) as [Hpre Hids].
  split; [exact Hn|]. split; [exact Hpre|].
  intros i Hi.
  destruct (lookup_lt_is_Some_2 (m_textureIDs s) (Z.to_nat i)) as [e He];
    [lia|].
  exists e. split; [exact He|]. exact (Hids i e Hi He).
Qed.

Lemma reachable_CreateGLTexture (s : State) (filename tag : string) :
  reachable s -> reachable (state_after (CreateGLTexture filename tag) s).
Proof.
  intros Hreach. unfold state_after.
  destruct (CreateGLTexture filename tag s) as [b s' l|u] eqn:E;
    [|assumption].
  eapply reachable_step; [eassumption|].
  eapply step_CreateGLTexture, E.
Qed.

Lemma reachable_DestroyGLTextures (s : State) :
  reachable s -> reachable (state_after DestroyGLTextures s).
Proof.
  intros Hreach. unfold state_after.
  destruct (DestroyGLTextures s) as [[] s' l|u] eqn:E; [|assumption].
  eapply reachable_step; [eassumption|].
  eapply step_DestroyGLTextures, E.
Qed.

(** Reachability through repeated loads. *)
Lemma load_textures_reachable (n : nat) :
  forall (s s' : State) (l : list event),
    reachable s -> load_textures n s = Done tt s' l -> reachable s'.
Proof.
  induction n as [|n IH]; intros s s' l Hreach Hrun.
  - injection Hrun as <- _. assumption.
  - cbn [load_textures] in Hrun.
    apply bind_Done_inv in Hrun as (b & s1 & l1 & l2 & H1 & H2 & _).
    apply (IH s1 s' l2); [|assumption].
    eapply reachable_step; [eassumption|].
    eapply step_CreateGLTexture, H1.
Qed.

(** With a loadable image and sixteen textures loaded, the store of
    [CreateGLTexture] goes to index 16. *)
Lemma CreateGLTexture_full (s : State) (filename tag : string) :
  m_loadedTextures s = 16 -> load_fails s filename = false ->
  CreateGLTexture filename tag s = Undefined (IndexOutOfBounds 16).
Proof.
  intros Hn Hload. pose proof (CreateGLTexture_cases s filename tag) as Hc.
  unfold load_fails in Hload.
  destruct (disk s filename) as [image|]; [|discriminate].
  destruct ((colorChannels image =? 3) || (colorChannels image =? 4));
    [|discriminate].
  rewrite Hn in Hc. cbn [in_bounds Z.leb Z.ltb Z.compare andb] in Hc.
  replace (in_bounds 16) with false in Hc by reflexivity. exact Hc.
Qed.

End ReachableFacts.

(** ** The registry on concrete runs *)

Lemma one_reloaded_reachable : reachable one_reloaded.
Proof.
  unfold one_reloaded.
  apply reachable_CreateGLTexture, reachable_DestroyGLTextures,
    reachable_CreateGLTexture, reachable_CreateGLTexture.
  apply (reachable_new (Some 1%N) demo_disk (fun _ => 1) 0%nat).
Qed.

Lemma one_reloaded_names : names_never_sentinel one_reloaded.
Proof. intros k. vm_compute. discriminate. Qed.

Lemma registry_prefix_invariant_witness :
  0 <= m_loadedTextures one_reloaded <= 16 /\
  (forall i, m_loadedTextures one_reloaded <= i < 16 ->
     m_textureIDs one_reloaded !! Z.to_nat i =
     Some (TEXTURE_INFO.mk "/0" (uint32 (-1)))) /\
  (forall i, 0 <= i < m_loadedTextures one_reloaded ->
     exists e,
       m_textureIDs one_reloaded !! Z.to_nat i = Some e /\
       TEXTURE_INFO.ID e <> uint32 (-1)).
Proof.
  apply (registry_prefix_invariant one_reloaded).
  - exact one_reloaded_reachable.
  - exact one_reloaded_names.
Defined.

(** C9 as stated fails when [glGenTextures] hands out 0xFFFFFFFF: the entry
    loaded with that name is skipped by [DestroyGLTextures] and keeps its
    tag although the counter is back at 0. *)
Lemma registry_prefix_invariant_counterexample :
  exists s1 l1 s2 l2,
    m_loadedTextures sentinel_new < 16 /\
    CreateGLTexture "textures/wood.jpg" "wood" sentinel_new =
      Done true s1 l1 /\
    DestroyGLTextures s1 = Done tt s2 l2 /\
    reachable s2 /\
    m_loadedTextures s2 = 0 /\
    m_textureIDs s2 !! Z.to_nat 0 =
      Some (TEXTURE_INFO.mk "wood" (uint32 (-1))) /\
    ~ prefix_invariant s2.
Proof.
  set (s1 := state_after (CreateGLTexture "textures/wood.jpg" "wood")
               sentinel_new).
  set (s2 := state_after DestroyGLTextures s1).
  assert (H1 : exists l1, CreateGLTexture "textures/wood.jpg" "wood"
                            sentinel_new = Done true s1 l1)
    by (eexists; vm_compute; reflexivity).
  assert (H2 : exists l2, DestroyGLTextures s1 = Done tt s2 l2)
    by (eexists; vm_compute; reflexivity).
  destruct H1 as [l1 H1]. destruct H2 as [l2 H2].
  exists s1, l1, s2, l2.
  split; [cbn; lia|]. split; [exact H1|]. split; [exact H2|].
  split.
  { eapply reachable_step; [|eapply step_DestroyGLTextures, H2].
    eapply reachable_step; [|eapply step_CreateGLTexture, H1].
    apply reachable_new. }
  split; [reflexivity|]. split; [reflexivity|].
  intros Hpre. specialize (Hpre 0). 
  assert (Hr : m_loadedTextures s2 <= 0 < 16) by (vm_compute; split; [discriminate|reflexivity]).
  specialize (Hpre Hr). vm_compute in Hpre. discriminate Hpre.
Qed.

(** C2 on a run: sixteen loads into a fresh object succeed and leave the
    counter at 16; the next load of a loadable image stores at index 16,
    outside the array; three calls of [PrepareScene] on a fresh object do
    the same with their seventeenth load. *)
Theorem seventeenth_texture_out_of_bounds :
  reachable sixteen_loaded /\
  m_loadedTextures sixteen_loaded = 16 /\
  CreateGLTexture "textures/wood.jpg" "wood" sixteen_loaded =
    Undefined (IndexOutOfBounds 16) /\
  (PrepareScene;; PrepareScene;; PrepareScene) demo_new =
    Undefined (IndexOutOfBounds 16).
Proof.
  split.
  { unfold sixteen_loaded, state_after.
    destruct (load_textures 16 demo_new) as [[] s' l|u] eqn:E.
    - exact (load_textures_reachable 16 demo_new s' l
               (reachable_new _ _ _ _) E).
    - apply reachable_new. }
  split; [vm_compute; reflexivity|].
  split; [apply CreateGLTexture_full; vm_compute; reflexivity|].
  vm_compute. reflexivity.
Qed.

(** The search on a registry with a repeated tag: the first entry wins,
    and a tag that is not loaded gives -1. *)
Example FindTextureSlot_demo :
  FindTextureSlot "wood" demo_three = Done 0 demo_three [] /\
  FindTextureSlot "gray" demo_three = Done 1 demo_three [] /\
  FindTextureSlot "/0" demo_three = Done (-1) demo_three [].
Proof. repeat split. Qed.

(** The three ways [CreateGLTexture] ends short of a store out of bounds. *)
Example CreateGLTexture_demo :
  (exists l, CreateGLTexture "textures/none.png" "none" grey_alpha_new =
             Done false grey_alpha_new l) /\
  (exists s l, CreateGLTexture "textures/mask.png" "mask" grey_alpha_new =
               Done false s l /\ registry s = registry grey_alpha_new) /\
  (exists s l, CreateGLTexture "textures/wood.jpg" "wood" demo_new =
               Done true s l /\ m_loadedTextures s = 1 /\
               m_textureIDs s !! 0%nat = Some (TEXTURE_INFO.mk "wood" 1)).
Proof.
  split; [eexists; vm_compute; reflexivity|].
  split.
  - destruct (CreateGLTexture "textures/mask.png" "mask" grey_alpha_new)
      as [b s l|u] eqn:E; vm_compute in E; [|discriminate E].
    injection E as <- <- <-. eexists _, _. split; reflexivity.
  - destruct (CreateGLTexture "textures/wood.jpg" "wood" demo_new)
      as [b s l|u] eqn:E; vm_compute in E; [|discriminate E].
    injection E as <- <- <-. eexists _, _. repeat split.
Qed.

(** ** The frame *)

Section RenderSceneFacts.
Context {glm : GlmOps}.

Lemma RenderScene_run (s : State) :
  valid_registry s ->
  RenderScene s =
  Done tt s (scene_log (m_pShaderManager s) (fun tag => slot_of tag s)).
Proof.
  intros Hv. unfold RenderScene, SetTextureUVScale. run.
  repeat (rewrite ?SetTransformations_run, ?SetShaderTexture_run
            by assumption; run).
  destruct (m_pShaderManager s); reflexivity.
Qed.

Lemma scene_calls_scene_log (shader : option N) (slot : string -> Z) :
  scene_calls (scene_log shader slot) = fixed_scene.
Proof. destruct shader; reflexivity. Qed.

Lemma SetupSceneLights_run (s : State) (sm : N) :
  m_pShaderManager s = Some sm ->
  SetupSceneLights s = Done tt s lights_log.
Proof.
  intros Hsm. unfold SetupSceneLights. run.
  repeat (rewrite (shader_call_run s sm) by assumption; run).
  reflexivity.
Qed.

Lemma slot_of_registry (s1 s2 : State) (tag : string) :
  valid_registry s1 -> valid_registry s2 -> registry s1 = registry s2 ->
  slot_of tag s2 = slot_of tag s1.
Proof.
  intros Hv1 Hv2 Hreg. injection Hreg as Hn Ha.
  destruct (FindTextureSlot_correct s1 tag Hv1) as (_ & _ & Hframe).
  apply (Hframe s2 Hv2). split; [congruence|].
  intros i _. rewrite Ha. reflexivity.
Qed.

(** C6: from any two states with well-formed, equal registries,
    [RenderScene] returns, leaves the state alone, and issues the same
    eight draw calls (plane, box, box, box, box, cylinder, cylinder, box),
    each after the same setter calls with the same constant scale,
    rotation, position, tag and UV-scale arguments; if moreover the shader
    manager is null in both or in neither, the two logs are equal entry for
    entry. *)
Theorem RenderScene_fixed_scene (s1 s2 : State) :
  valid_registry s1 -> valid_registry s2 -> registry s1 = registry s2 ->
  exists l1 l2,
    RenderScene s1 = Done tt s1 l1 /\
    RenderScene s2 = Done tt s2 l2 /\
    mesh_draws l1 =
      [ DrawPlaneMesh; DrawBoxMesh; DrawBoxMesh; DrawBoxMesh; DrawBoxMesh;
        DrawCylinderMesh; DrawCylinderMesh; DrawBoxMesh ] /\
    mesh_draws l2 = mesh_draws l1 /\
    scene_calls l1 = fixed_scene /\
    scene_calls l2 = fixed_scene /\
    ((m_pShaderManager s1 = None <-> m_pShaderManager s2 = None) -> l1 = l2).
Proof.
  intros Hv1 Hv2 Hreg.
  exists (scene_log (m_pShaderManager s1) (fun tag => slot_of tag s1)),
         (scene_log (m_pShaderManager s2) (fun tag => slot_of tag s2)).
  split; [apply RenderScene_run, Hv1|].
  split; [apply RenderScene_run, Hv2|].
  split; [destruct (m_pShaderManager s1); reflexivity|].
  split; [destruct (m_pShaderManager s1), (m_pShaderManager s2); reflexivity|].
  split; [apply scene_calls_scene_log|].
  split; [apply scene_calls_scene_log|].
  intros Hnull. unfold scene_log.
  rewrite !(slot_of_registry s1 s2 _ Hv1 Hv2 Hreg).
  destruct (m_pShaderManager s1), (m_pShaderManager s2); try reflexivity.
  - destruct Hnull as [_ H]. discriminate (H eq_refl).
  - destruct Hnull as [H _]. discriminate (H eq_refl).
Qed.

End RenderSceneFacts.

Lemma demo_three_elsewhere_valid : valid_registry demo_three_elsewhere.
Proof. split; [reflexivity|cbn; lia]. Qed.

Lemma RenderScene_fixed_scene_witness :
  exists l1 l2,
    RenderScene demo_three = Done tt demo_three l1 /\
    RenderScene demo_three_elsewhere = Done tt demo_three_elsewhere l2 /\
    mesh_draws l1 =
      [ DrawPlaneMesh; DrawBoxMesh; DrawBoxMesh; DrawBoxMesh; DrawBoxMesh;
        DrawCylinderMesh; DrawCylinderMesh; DrawBoxMesh ] /\
    mesh_draws l2 = mesh_draws l1 /\
    scene_calls l1 = fixed_scene /\
    scene_calls l2 = fixed_scene /\
    ((m_pShaderManager demo_three = None <->
      m_pShaderManager demo_three_elsewhere = None) -> l1 = l2).
Proof.
  apply (RenderScene_fixed_scene demo_three demo_three_elsewhere).
  - exact demo_three_valid.
  - exact demo_three_elsewhere_valid.
  - reflexivity.
Defined.

(** ** What each member function can log *)

Section LogsOnly.
Context {glm : GlmOps}.
Variable p : event -> bool.

Lemma logs_only_ret {A} (a : A) : logs_only p (ret a).
Proof. intros s. reflexivity. Qed.

Lemma logs_only_get : logs_only p get.
Proof. intros s. reflexivity. Qed.

Lemma logs_only_modify (f : State -> State) : logs_only p (modify f).
Proof. intros s. reflexivity. Qed.

Lemma logs_only_undefined {A} (u : undefined_behaviour) :
  logs_only p (undefined (A := A) u).
Proof. intros s. reflexivity. Qed.

Lemma logs_only_emit (e : event) : p e = true -> logs_only p (emit e).
Proof. intros He s. cbn. rewrite He. reflexivity. Qed.

Lemma logs_only_bind {A B} (m : M A) (k : A -> M B) :
  logs_only p m -> (forall a, logs_only p (k a)) -> logs_only p (m ≫= k).
Proof.
  intros Hm Hk s. specialize (Hm s). run.
  destruct (m s) as [a s1 l1|u]; [|reflexivity].
  specialize (Hk a s1). destruct (k a s1) as [b s2 l2|u]; [|reflexivity].
  cbn [log_of] in *. rewrite forallb_app, Hm, Hk. reflexivity.
Qed.

Lemma logs_only_for_loop (body : Z -> M unit) (count : nat) :
  (forall i, logs_only p (body i)) ->
  forall i, logs_only p (for_loop count i body).
Proof.
  intros Hbody. induction count as [|count IH]; intros i; cbn [for_loop].
  - apply logs_only_ret.
  - apply logs_only_bind; [apply Hbody|intros _; apply IH].
Qed.

Lemma logs_only_read_slot (i : Z) : logs_only p (read_slot i).
Proof.
  intros s. unfold read_slot.
  destruct (in_bounds i); [|reflexivity].
  destruct (m_textureIDs s !! Z.to_nat i); reflexivity.
Qed.

Lemma logs_only_write_slot (i : Z) (f : TEXTURE_INFO.t -> TEXTURE_INFO.t) :
  logs_only p (write_slot i f).
Proof.
  apply logs_only_bind; [apply logs_only_read_slot|].
  intros e. apply logs_only_modify.
Qed.

Lemma logs_only_shader_call (e : event) :
  p e = true -> logs_only p (shader_call e).
Proof.
  intros He. apply logs_only_bind; [apply logs_only_get|]. intros s.
  destruct (m_pShaderManager s);
    [apply logs_only_emit, He|apply logs_only_undefined].
Qed.

Lemma logs_only_FindTextureSlot_from (tag : string) (count : nat) :
  forall i, logs_only p (FindTextureSlot_from count i tag).
Proof.
  induction count as [|count IH]; intros i; cbn [FindTextureSlot_from].
  - apply logs_only_ret.
  - apply logs_only_bind; [apply logs_only_read_slot|]. intros e.
    destruct (String.eqb (TEXTURE_INFO.tag e) tag);
      [apply logs_only_ret|apply IH].
Qed.

End LogsOnly.

(** Break a computation into its calls and check each logged entry. *)
Ltac logs_with known :=
  repeat first
    [ known
    | apply logs_only_ret | apply logs_only_get | apply logs_only_modify
    | apply logs_only_undefined | apply logs_only_read_slot
    | apply logs_only_write_slot | apply logs_only_FindTextureSlot_from
    | apply logs_only_emit; reflexivity
    | apply logs_only_shader_call; reflexivity
    | apply logs_only_for_loop; intros ?
    | apply logs_only_bind; [|intros ?]
    | match goal with
      | |- logs_only _ (match ?x with _ => _ end) => destruct x
      end ].
Ltac logs := logs_with fail.

Section OrderFacts.
Context {glm : GlmOps}.

Lemma CreateGLTexture_no_draw (filename tag : string) :
  logs_only not_draw (CreateGLTexture filename tag).
Proof.
  unfold CreateGLTexture, gen_texture, store_texture. cbv zeta. logs.
Qed.

Lemma PrepareScene_no_draw : logs_only not_draw PrepareScene.
Proof.
  unfold PrepareScene, LoadSceneTextures, BindGLTextures, SetupSceneLights.
  logs_with ltac:(apply CreateGLTexture_no_draw).
Qed.

Lemma RenderScene_no_texture_upload : logs_only not_texture_upload RenderScene.
Proof.
  unfold RenderScene, SetTransformations, SetShaderTexture, SetTextureUVScale,
    FindTextureSlot.
  cbv zeta. logs.
Qed.

Lemma frames_no_texture_upload (n : nat) :
  logs_only not_texture_upload (frames n).
Proof.
  induction n as [|n IH]; cbn [frames]; [apply logs_only_ret|].
  apply logs_only_bind; [apply RenderScene_no_texture_upload|intros _; exact IH].
Qed.

Lemma uploads_before_draws_no_upload (l : list event) :
  forallb not_texture_upload l = true -> uploads_before_draws l = true.
Proof.
  induction l as [|e l IH]; [reflexivity|]. cbn. intros H.
  apply andb_true_iff in H as [_ H].
  destruct (is_draw e); [exact H|apply IH, H].
Qed.

Lemma uploads_before_draws_app (lp lr : list event) :
  forallb not_draw lp = true -> forallb not_texture_upload lr = true ->
  uploads_before_draws (lp ++ lr) = true.
Proof.
  intros Hp Hr. induction lp as [|e lp IH]; cbn.
  - apply uploads_before_draws_no_upload, Hr.
  - cbn in Hp. apply andb_true_iff in Hp as [He Hp].
    unfold not_draw in He. apply negb_true_iff in He. rewrite He.
    apply IH, Hp.
Qed.

Lemma program_uploads_before_draws (n : nat) (s : State) :
  uploads_before_draws (log_of (program n s)) = true.
Proof.
  unfold program. run.
  pose proof (PrepareScene_no_draw s) as Hp.
  destruct (PrepareScene s) as [[] s1 lp|u]; [|reflexivity].
  pose proof (frames_no_texture_upload n s1) as Hr.
  destruct (frames n s1) as [[] s2 lr|u]; [|reflexivity].
  apply uploads_before_draws_app; assumption.
Qed.

Lemma count_uploads_app (l1 l2 : list event) :
  count_uploads (l1 ++ l2) = (count_uploads l1 + count_uploads l2)%nat.
Proof. unfold count_uploads. rewrite List.filter_app, length_app. reflexivity. Qed.

Lemma count_uploads_none (l : list event) :
  forallb not_texture_upload l = true -> count_uploads l = 0%nat.
Proof.
  unfold count_uploads. induction l as [|e l IH]; [reflexivity|]. cbn.
  intros H. apply andb_true_iff in H as [He H].
  unfold not_texture_upload in He. apply negb_true_iff in He. rewrite He.
  apply IH, H.
Qed.

Lemma CreateGLTexture_success (s : State) (filename tag : string) :
  valid_registry s -> m_loadedTextures s < 16 ->
  load_fails s filename = false ->
  CreateGLTexture filename tag s =
    Done true (texture_stored tag s) (created_log_of s filename) /\
  count_uploads (created_log_of s filename) = 1%nat.
Proof.
  intros [Hlen Hn] Hlt Hload.
  pose proof (CreateGLTexture_cases s filename tag) as Hc.
  unfold load_fails in Hload. unfold created_log_of.
  destruct (disk s filename) as [image|]; [|discriminate].
  destruct ((colorChannels image =? 3) || (colorChannels image =? 4));
    [|discriminate].
  replace (in_bounds (m_loadedTextures s)) with true in Hc
    by (symmetry; apply in_bounds_true; lia).
  destruct (lookup_lt_is_Some_2 (m_textureIDs s)
              (Z.to_nat (m_loadedTextures s))) as [e He]; [lia|].
  rewrite He in Hc. split; [exact Hc|].
  unfold created_log, count_uploads. cbn.
  destruct (colorChannels image =? 3); reflexivity.
Qed.

Lemma texture_stored_valid (s : State) (tag : string) :
  valid_registry s -> m_loadedTextures s < 16 ->
  valid_registry (texture_stored tag s).
Proof.
  intros [Hlen Hn] Hlt. split; cbn [texture_stored m_textureIDs m_loadedTextures].
  - rewrite length_insert. exact Hlen.
  - lia.
Qed.

Lemma BindGLTextures_loop (s : State) (count : nat) :
  length (m_textureIDs s) = 16%nat ->
  forall i, 0 <= i -> i + Z.of_nat count <= 16 ->
    exists l,
      for_loop count i (fun i =>
        emit (glActiveTexture i);;
        e ← read_slot i;
        emit (glBindTexture GL_TEXTURE_2D (TEXTURE_INFO.ID e))) s =
      Done tt s l.
Proof.
  intros Hlen. induction count as [|count IH]; intros i Hi Hend.
  - exists []. reflexivity.
  - destruct (read_slot_in_bounds s i Hlen) as (e & _ & Hread); [lia|].
    destruct (IH (i + 1)) as [l Hl]; [lia|lia|].
    cbn [for_loop]. run. rewrite Hread. run. 
    cbv beta iota zeta delta [mbind M_bind bind] in Hl. rewrite Hl.
    eexists. reflexivity.
Qed.

Lemma BindGLTextures_run (s : State) :
  valid_registry s ->
  exists l, BindGLTextures s = Done tt s l /\ count_uploads l = 0%nat.
Proof.
  intros [Hlen Hn].
  destruct (BindGLTextures_loop s (Z.to_nat (m_loadedTextures s)) Hlen 0)
    as [l Hl]; [lia|lia|].
  assert (Hrun : BindGLTextures s = Done tt s l).
  { unfold BindGLTextures. run.
    cbv beta iota zeta delta [mbind M_bind bind] in Hl. rewrite Hl.
    reflexivity. }
  exists l. split; [exact Hrun|].
  apply count_uploads_none.
  assert (H : logs_only not_texture_upload BindGLTextures)
    by (unfold BindGLTextures; logs).
  specialize (H s). rewrite Hrun in H. exact H.
Qed.

(** With a non-null shader manager, room for six more textures and the six
    scene images loadable, [PrepareScene] returns, having uploaded six
    images and moved the counter up by six. *)
Lemma PrepareScene_total (s : State) (sm : N) :
  valid_registry s -> m_pShaderManager s = Some sm ->
  m_loadedTextures s + 6 <= 16 ->
  Forall (fun f => load_fails s f = false) scene_files ->
  exists s' l,
    PrepareScene s = Done tt s' l /\
    m_loadedTextures s' = m_loadedTextures s + 6 /\
    count_uploads l = 6%nat.
Proof.
  intros Hv Hsm Hroom Hfiles.
  repeat (apply Forall_cons_1 in Hfiles as [? Hfiles]).
  set (s1 := texture_stored "wood" s).
  set (s2 := texture_stored "whiteWood" s1).
  set (s3 := texture_stored "concrete" s2).
  set (s4 := texture_stored "green" s3).
  set (s5 := texture_stored "gray" s4).
  set (s6 := texture_stored "black" s5).
  assert (Hv1 : valid_registry s1)
    by (apply texture_stored_valid; [assumption|cbn; lia]).
  assert (Hv2 : valid_registry s2)
    by (apply texture_stored_valid; [assumption|cbn; lia]).
  assert (Hv3 : valid_registry s3)
    by (apply texture_stored_valid; [assumption|cbn; lia]).
  assert (Hv4 : valid_registry s4)
    by (apply texture_stored_valid; [assumption|cbn; lia]).
  assert (Hv5 : valid_registry s5)
    by (apply texture_stored_valid; [assumption|cbn; lia]).
  assert (Hv6 : valid_registry s6)
    by (apply texture_stored_valid; [assumption|cbn; lia]).
  destruct (CreateGLTexture_success s "textures/wood.jpg" "wood" Hv)
    as [R1 C1]; [lia|assumption|].
  destruct (CreateGLTexture_success s1 "textures/white_wood.jpg" "whiteWood"
              Hv1) as [R2 C2]; [cbn; lia|assumption|].
  destruct (CreateGLTexture_success s2 "textures/concrete.png" "concrete"
              Hv2) as [R3 C3]; [cbn; lia|assumption|].
  destruct (CreateGLTexture_success s3 "textures/green.png" "green" Hv3)
    as [R4 C4]; [cbn; lia|assumption|].
  destruct (CreateGLTexture_success s4 "textures/gray.png" "gray" Hv4)
    as [R5 C5]; [cbn; lia|assumption|].
  destruct (CreateGLTexture_success s5 "textures/black.png" "black" Hv5)
    as [R6 C6]; [cbn; lia|assumption|].
  destruct (BindGLTextures_run s6 Hv6) as (lb & Rb & Cb).
  assert (Rl : SetupSceneLights s6 = Done tt s6 lights_log)
    by (apply (SetupSceneLights_run s6 sm); exact Hsm).
  exists s6. eexists. split; [|split].
  - unfold PrepareScene, LoadSceneTextures. run.
    fold s1 s2 s3 s4 s5 s6.
    rewrite R1; run; fold s1. rewrite R2; run; fold s2.
    rewrite R3; run; fold s3. rewrite R4; run; fold s4.
    rewrite R5; run; fold s5. rewrite R6; run; fold s6.
    rewrite Rb; run. rewrite Rl. reflexivity.
  - cbn. lia.
  - rewrite !count_uploads_app, C1, C2, C3, C4, C5, C6, Cb. reflexivity.
Qed.

End OrderFacts.

(** ** Configuration per draw call, and the order of operations *)

Section ConfigurationFacts.
Context {glm : GlmOps}.




(** C8: [PrepareScene] issues no draw call and [RenderScene] uploads no
    image, so in the program that prepares the scene once and then renders
    frames every image upload comes before every draw call; [PrepareScene]
    does perform its six uploads when the images are loadable; and in
    [RenderScene] each of the eight draw calls has, since the previous
    draw call, a call of [SetTransformations] and one of
    [SetShaderTexture], the whole sequence of setter and draw calls being
    the fixed one. *)
Theorem scene_order :
  logs_only not_draw PrepareScene /\
  logs_only not_texture_upload RenderScene /\
  (forall n s, uploads_before_draws (log_of (program n s)) = true) /\
  (forall s sm,
     valid_registry s -> m_pShaderManager s = Some sm ->
     m_loadedTextures s + 6 <= 16 ->
     Forall (fun f => load_fails s f = false) scene_files ->
     exists s' l,
       PrepareScene s = Done tt s' l /\
       m_loadedTextures s' = m_loadedTextures s + 6 /\
       count_uploads l = 6%nat) /\
  (forall s,
     valid_registry s ->
     exists l,
       RenderScene s = Done tt s l /\
       length (config_steps l) = 8%nat /\
       forallb calls_setters (config_steps l) = true /\
       scene_calls l = fixed_scene).
Proof.
  split; [exact PrepareScene_no_draw|].
  split; [exact RenderScene_no_texture_upload|].
  split; [exact program_uploads_before_draws|].
  split; [exact PrepareScene_total|].
  intros s Hv.
  exists (scene_log (m_pShaderManager s) (fun tag => slot_of tag s)).
  split; [apply RenderScene_run, Hv|].
  split; [destruct (m_pShaderManager s); reflexivity|].
  split; [destruct (m_pShaderManager s); reflexivity|].
  apply scene_calls_scene_log.
Qed.

End ConfigurationFacts.




(** The program on a fresh object, two frames: six uploads, sixteen draw
    calls, uploads first. *)
Example program_two_frames :
  exists s l,
    program 2 demo_new = Done tt s l /\
    count_uploads l = 6%nat /\
    length (mesh_draws l) = 16%nat /\
    uploads_before_draws l = true.
Proof.
  destruct (program 2 demo_new) as [[] s l|u] eqn:E.
  - exists s, l. split; [reflexivity|].
    assert (Hl : l = log_of (program 2 demo_new)) by (rewrite E; reflexivity).
    rewrite Hl. vm_compute. auto.
  - vm_compute in E. discriminate E.
Qed.

(** * Further properties of the member functions *)

(** ** Lookup as first position in the list of loaded tags *)

Section TagListFacts.
Context {glm : GlmOps}.

Lemma FindTextureSlot_from_tag_index (tag : string) (count : nat) :
  forall (i : Z) (s : State),
    length (m_textureIDs s) = 16%nat ->
    0 <= i -> i + Z.of_nat count <= 16 ->
    FindTextureSlot_from count i tag s =
    Done (tag_index_from i tag
            (map TEXTURE_INFO.tag
               (take count (drop (Z.to_nat i) (m_textureIDs s))))) s [].
Proof.
  induction count as [|count IH]; intros i s Hlen Hi Hend.
  - reflexivity.
  - destruct (read_slot_in_bounds s i Hlen) as (e & He & Hread); [lia|].
    cbn [FindTextureSlot_from]. run. rewrite Hread.
    rewrite (drop_S _ _ _ He). cbn [take map tag_index_from].
    destruct (String.eqb (TEXTURE_INFO.tag e) tag); [reflexivity|].
    rewrite (IH (i + 1) s Hlen) by lia.
    replace (Z.to_nat (i + 1)) with (S (Z.to_nat i)) by lia. reflexivity.
Qed.

Lemma slot_of_tag_index (s : State) (tag : string) :
  valid_registry s -> slot_of tag s = tag_index tag (loaded_tags s).
Proof.
  intros [Hlen Hn]. unfold slot_of, FindTextureSlot. run.
  rewrite (FindTextureSlot_from_tag_index tag _ 0 s Hlen) by lia.
  reflexivity.
Qed.

Lemma tag_index_from_range (tag : string) (tags : list string) :
  forall i, 0 <= i ->
    tag_index_from i tag tags = -1 \/
    i <= tag_index_from i tag tags < i + Z.of_nat (length tags).
Proof.
  induction tags as [|t tags IH]; intros i Hi; cbn [tag_index_from length].
  - left. reflexivity.
  - destruct (String.eqb t tag); [right; lia|].
    destruct (IH (i + 1)) as [H|H]; [lia|left; exact H|right; lia].
Qed.

Lemma tag_index_from_app (tag : string) (tags more : list string) :
  forall i, 0 <= i ->
    tag_index_from i tag (tags ++ more)%list =
    if tag_index_from i tag tags =? -1
    then tag_index_from (i + Z.of_nat (length tags)) tag more
    else tag_index_from i tag tags.
Proof.
  induction tags as [|t tags IH]; intros i Hi; cbn [tag_index_from length app].
  - replace (i + Z.of_nat 0) with i by lia. reflexivity.
  - destruct (String.eqb t tag).
    + replace (i =? -1) with false by (symmetry; apply Z.eqb_neq; lia).
      reflexivity.
    + rewrite (IH (i + 1)) by lia.
      replace (i + 1 + Z.of_nat (length tags))
        with (i + Z.of_nat (S (length tags))) by lia.
      reflexivity.
Qed.

Lemma loaded_entries_length (s : State) :
  valid_registry s ->
  Z.of_nat (length (loaded_entries s)) = m_loadedTextures s.
Proof.
  intros [Hlen Hn]. unfold loaded_entries. rewrite length_take. lia.
Qed.

Lemma loaded_tags_length (s : State) :
  valid_registry s -> Z.of_nat (length (loaded_tags s)) = m_loadedTextures s.
Proof.
  intros Hv. unfold loaded_tags. rewrite length_map.
  apply loaded_entries_length, Hv.
Qed.

Lemma loaded_entries_stored (s : State) (tag : string) :
  valid_registry s -> m_loadedTextures s < 16 ->
  loaded_entries (texture_stored tag s) =
  (loaded_entries s ++
   [TEXTURE_INFO.mk tag (uint32 (gl_name s (gl_generated s)))])%list.
Proof.
  intros [Hlen Hn] Hlt. unfold loaded_entries.
  cbn [texture_stored m_loadedTextures m_textureIDs].
  replace (Z.to_nat (m_loadedTextures s + 1))
    with (S (Z.to_nat (m_loadedTextures s))) by lia.
  rewrite (take_S_r _ _ (TEXTURE_INFO.mk tag
             (uint32 (gl_name s (gl_generated s))))).
  - rewrite take_insert_ge by lia. reflexivity.
  - apply list_lookup_insert_eq. lia.
Qed.

Lemma loaded_tags_stored (s : State) (tag : string) :
  valid_registry s -> m_loadedTextures s < 16 ->
  loaded_tags (texture_stored tag s) = (loaded_tags s ++ [tag])%list.
Proof.
  intros Hv Hlt. unfold loaded_tags.
  rewrite (loaded_entries_stored s tag Hv Hlt), map_app. reflexivity.
Qed.

(** The slot of every tag after one more texture has been stored. *)
Lemma slot_of_stored (s : State) (tag tag' : string) :
  valid_registry s -> m_loadedTextures s < 16 ->
  slot_of tag' (texture_stored tag s) =
  if slot_of tag' s =? -1
  then (if String.eqb tag tag' then m_loadedTextures s else -1)
  else slot_of tag' s.
Proof.
  intros Hv Hlt.
  rewrite (slot_of_tag_index _ tag' (texture_stored_valid s tag Hv Hlt)).
  rewrite (slot_of_tag_index s tag' Hv).
  rewrite (loaded_tags_stored s tag Hv Hlt).
  unfold tag_index. rewrite tag_index_from_app by lia.
  rewrite Z.add_0_l, (loaded_tags_length s Hv). reflexivity.
Qed.

(** X1 (lookup after insert): after a successful [CreateGLTexture] under
    [tag], [FindTextureSlot] gives every tag that was already loaded the
    slot it had (also [tag] itself, were it loaded before: the first entry
    wins), gives [tag] the old value of the counter if it was not loaded,
    and still gives -1 to every other tag. *)
Theorem FindTextureSlot_after_CreateGLTexture (s : State)
    (filename tag tag' : string) :
  valid_registry s -> m_loadedTextures s < 16 ->
  load_fails s filename = false ->
  exists s' l,
    CreateGLTexture filename tag s = Done true s' l /\
    FindTextureSlot tag' s' =
    Done (if slot_of tag' s =? -1
          then (if String.eqb tag tag' then m_loadedTextures s else -1)
          else slot_of tag' s) s' [].
Proof.
  intros Hv Hlt Hload.
  destruct (CreateGLTexture_success s filename tag Hv Hlt Hload) as [Hrun _].
  exists (texture_stored tag s), (created_log_of s filename).
  split; [exact Hrun|].
  rewrite (FindTextureSlot_run _ tag' (texture_stored_valid s tag Hv Hlt)).
  rewrite (slot_of_stored s tag tag' Hv Hlt). reflexivity.
Qed.

End TagListFacts.

Lemma FindTextureSlot_after_CreateGLTexture_witness :
  exists s' l,
    CreateGLTexture "textures/gray.png" "gray" demo_three = Done true s' l /\
    FindTextureSlot "marble" s' =
    Done (if slot_of "marble" demo_three =? -1
          then (if String.eqb "gray" "marble"
                then m_loadedTextures demo_three else -1)
          else slot_of "marble" demo_three) s' [].
Proof.
  apply (FindTextureSlot_after_CreateGLTexture demo_three
           "textures/gray.png" "gray" "marble").
  - exact demo_three_valid.
  - cbn. lia.
  - reflexivity.
Defined.

(** ** Binding and destroying the loaded textures *)

Section BindDestroyFacts.
Context {glm : GlmOps}.

Lemma BindGLTextures_loop_log (s : State) (count : nat) :
  length (m_textureIDs s) = 16%nat ->
  forall i, 0 <= i -> i + Z.of_nat count <= 16 ->
    for_loop count i (fun i =>
      emit (glActiveTexture i);;
      e ← read_slot i;
      emit (glBindTexture GL_TEXTURE_2D (TEXTURE_INFO.ID e))) s =
    Done tt s
      (bind_log_from i (take count (drop (Z.to_nat i) (m_textureIDs s)))).
Proof.
  intros Hlen. induction count as [|count IH]; intros i Hi Hend.
  - reflexivity.
  - destruct (read_slot_in_bounds s i Hlen) as (e & He & Hread); [lia|].
    specialize (IH (i + 1)).
    cbv beta iota zeta delta [mbind M_bind bind] in IH.
    cbn [for_loop]. run. rewrite Hread. run. rewrite IH by lia.
    rewrite (drop_S _ _ _ He). cbn [take bind_log_from].
    replace (Z.to_nat (i + 1)) with (S (Z.to_nat i)) by lia. reflexivity.
Qed.

Lemma BindGLTextures_log (s : State) :
  valid_registry s ->
  BindGLTextures s = Done tt s (bind_log_from 0 (loaded_entries s)).
Proof.
  intros [Hlen Hn].
  pose proof (BindGLTextures_loop_log s (Z.to_nat (m_loadedTextures s))
                Hlen 0) as H.
  unfold BindGLTextures. run. rewrite H by lia. reflexivity.
Qed.

Lemma bind_log_from_lookup (entries : list TEXTURE_INFO.t) :
  forall (i : Z) (k : nat) (e : TEXTURE_INFO.t),
    entries !! k = Some e ->
    exists before after,
      bind_log_from i entries =
      (before ++
       [ glActiveTexture (i + Z.of_nat k);
         glBindTexture GL_TEXTURE_2D (TEXTURE_INFO.ID e) ] ++ after)%list /\
      length before = (2 * k)%nat.
Proof.
  induction entries as [|e0 entries IH]; intros i k e Hk; [discriminate|].
  destruct k as [|k].
  - injection Hk as ->. exists [], (bind_log_from (i + 1) entries).
    replace (i + Z.of_nat 0) with i by lia. split; reflexivity.
  - destruct (IH (i + 1) k e Hk) as (before & after & Hlog & Hb).
    exists (glActiveTexture i :: glBindTexture GL_TEXTURE_2D
              (TEXTURE_INFO.ID e0) :: before), after.
    cbn [bind_log_from]. rewrite Hlog.
    replace (i + 1 + Z.of_nat k) with (i + Z.of_nat (S k)) by lia.
    split; [reflexivity|]. cbn [length]. lia.
Qed.

(** X2: with a well-formed registry [BindGLTextures] changes nothing and
    logs, for each index below the counter in increasing order, the
    selection of that texture unit followed by the binding of that entry's
    ID; entries at or above the counter are not bound. *)
Theorem BindGLTextures_binds_loaded (s : State) :
  valid_registry s ->
  BindGLTextures s = Done tt s (bind_log_from 0 (loaded_entries s)) /\
  length (log_of (BindGLTextures s)) =
    (2 * Z.to_nat (m_loadedTextures s))%nat /\
  forall i e, 0 <= i < m_loadedTextures s ->
    m_textureIDs s !! Z.to_nat i = Some e ->
    exists before after,
      log_of (BindGLTextures s) =
      (before ++
       [ glActiveTexture i;
         glBindTexture GL_TEXTURE_2D (TEXTURE_INFO.ID e) ] ++ after)%list /\
      length before = (2 * Z.to_nat i)%nat.
Proof.
  intros Hv. pose proof Hv as [Hlen Hn].
  pose proof (BindGLTextures_log s Hv) as Hrun. rewrite Hrun.
  split; [reflexivity|]. cbn [log_of]. split.
  - assert (Hl : forall es i, length (bind_log_from i es) = (2 * length es)%nat).
    { induction es as [|e es IH]; intros i; cbn [bind_log_from length];
        [reflexivity|]. rewrite IH. lia. }
    rewrite Hl. unfold loaded_entries. rewrite length_take. lia.
  - intros i e Hi He.
    assert (Hk : loaded_entries s !! Z.to_nat i = Some e).
    { unfold loaded_entries. rewrite lookup_take_lt by lia. exact He. }
    destruct (bind_log_from_lookup _ 0 _ _ Hk) as (before & after & Hlog & Hb).
    exists before, after. rewrite Hlog, Z.add_0_l, Z2Nat.id by lia.
    split; [reflexivity|exact Hb].
Qed.

Lemma DestroyGLTextures_body_log (s : State) (i : Z) :
  length (m_textureIDs s) = 16%nat -> 0 <= i < 16 ->
  exists e,
    m_textureIDs s !! Z.to_nat i = Some e /\
    DestroyGLTextures_body i s =
    Done tt
      (set_textureIDs
         (if TEXTURE_INFO.ID e =? uint32 (-1) then m_textureIDs s
          else <[Z.to_nat i := empty_entry]> (m_textureIDs s)) s)
      (delete_log [e]).
Proof.
  intros Hlen Hi.
  destruct (read_slot_in_bounds s i Hlen Hi) as (e & He & Hread).
  assert (Hb : in_bounds i = true) by (apply in_bounds_true; lia).
  exists e. split; [exact He|].
  unfold DestroyGLTextures_body, delete_log. cbn [flat_map]. run.
  rewrite Hread.
  destruct (TEXTURE_INFO.ID e =? uint32 (-1)) eqn:Eid; cbn [negb].
  - destruct s; reflexivity.
  - rewrite (write_slot_run s _ _ e Hb He). run.
    erewrite write_slot_run; [|exact Hb|]; cycle 1.
    { cbn [m_textureIDs set_textureIDs]. apply list_lookup_insert_eq.
      eapply lookup_lt_Some, He. }
    run. cbn [m_textureIDs set_textureIDs]. rewrite list_insert_insert_eq.
    reflexivity.
Qed.

Lemma delete_log_cons (e : TEXTURE_INFO.t) (es : list TEXTURE_INFO.t) :
  delete_log (e :: es) = (delete_log [e] ++ delete_log es)%list.
Proof. unfold delete_log. cbn [flat_map]. rewrite app_nil_r. reflexivity. Qed.

Lemma DestroyGLTextures_loop_log (count : nat) :
  forall (i : Z) (s : State),
    length (m_textureIDs s) = 16%nat ->
    0 <= i -> i + Z.of_nat count <= 16 ->
    exists s',
      for_loop count i DestroyGLTextures_body s =
      Done tt s'
        (delete_log (take count (drop (Z.to_nat i) (m_textureIDs s)))).
Proof.
  induction count as [|count IH]; intros i s Hlen Hi Hend.
  - exists s. reflexivity.
  - destruct (DestroyGLTextures_body_log s i Hlen) as (e & He & Hbody);
      [lia|].
    set (s1 := set_textureIDs
                 (if TEXTURE_INFO.ID e =? uint32 (-1) then m_textureIDs s
                  else <[Z.to_nat i := empty_entry]> (m_textureIDs s)) s)
      in Hbody.
    assert (Hlen1 : length (m_textureIDs s1) = 16%nat).
    { subst s1. cbn [m_textureIDs set_textureIDs].
      destruct (TEXTURE_INFO.ID e =? uint32 (-1));
        rewrite ?length_insert; assumption. }
    assert (Hdrop : drop (Z.to_nat (i + 1)) (m_textureIDs s1) =
                    drop (S (Z.to_nat i)) (m_textureIDs s)).
    { replace (Z.to_nat (i + 1)) with (S (Z.to_nat i)) by lia.
      subst s1. cbn [m_textureIDs set_textureIDs].
      destruct (TEXTURE_INFO.ID e =? uint32 (-1)); [reflexivity|].
      apply drop_insert_lt. lia. }
    destruct (IH (i + 1) s1 Hlen1) as (s' & Hrun); [lia|lia|].
    exists s'. cbn [for_loop]. run. rewrite Hbody, Hrun, Hdrop.
    rewrite (drop_S _ _ _ He). cbn [take].
    rewrite (delete_log_cons e
               (take count (drop (S (Z.to_nat i)) (m_textureIDs s)))).
    reflexivity.
Qed.

Lemma destroyed_entries (s : State) (arr' : list TEXTURE_INFO.t) :
  valid_registry s -> length arr' = 16%nat ->
  (forall j e, 0 <= j < 16 ->
     m_textureIDs s !! Z.to_nat j = Some e ->
     arr' !! Z.to_nat j =
     Some (if ((j <? m_loadedTextures s) &&
               negb (TEXTURE_INFO.ID e =? uint32 (-1)))%bool
           then empty_entry else e)) ->
  arr' = m_textureIDs (destroyed s).
Proof.
  intros [Hlen Hn] Hlen' Harr. apply list_eq. intros j.
  cbn [destroyed m_textureIDs]. unfold loaded_entries.
  set (n := Z.to_nat (m_loadedTextures s)).
  destruct (Nat.lt_ge_cases j 16) as [Hj|Hj].
  - destruct (lookup_lt_is_Some_2 (m_textureIDs s) j) as [e He]; [lia|].
    specialize (Harr (Z.of_nat j) e). rewrite Nat2Z.id in Harr.
    rewrite Harr by (assumption || lia).
    destruct (Nat.lt_ge_cases j n) as [Hjn|Hjn].
    + rewrite lookup_app_l by (rewrite length_map, length_take; lia).
      rewrite list_lookup_fmap, lookup_take_lt, He by lia. cbn.
      replace (Z.of_nat j <? m_loadedTextures s) with true
        by (symmetry; apply Z.ltb_lt; lia).
      unfold cleared. cbn [andb].
      destruct (TEXTURE_INFO.ID e =? uint32 (-1)); reflexivity.
    + rewrite lookup_app_r by (rewrite length_map, length_take; lia).
      rewrite length_map, length_take, lookup_drop.
      replace (n + (j - n `min` length (m_textureIDs s)))%nat with j by lia.
      replace (Z.of_nat j <? m_loadedTextures s) with false
        by (symmetry; apply Z.ltb_ge; lia).
      cbn [andb]. symmetry. exact He.
  - rewrite lookup_ge_None_2 by lia. symmetry. apply lookup_ge_None_2.
    rewrite length_app, length_map, length_take, length_drop. lia.
Qed.

Lemma DestroyGLTextures_destroyed (s : State) :
  valid_registry s ->
  DestroyGLTextures s =
  Done tt (destroyed s) (delete_log (loaded_entries s)).
Proof.
  intros Hv. pose proof Hv as [Hlen Hn].
  destruct (DestroyGLTextures_run s Hv)
    as (s' & l & Hrun & Hsm & Hdisk & Hname & Hgen & Hcount & Hlen' & Harr).
  destruct (DestroyGLTextures_loop_log (Z.to_nat (m_loadedTextures s)) 0 s
              Hlen) as (s1 & Hloop); [lia|lia|].
  assert (Hlog : DestroyGLTextures s =
                 Done tt (set_loadedTextures 0 s1)
                   (delete_log (loaded_entries s))).
  { unfold DestroyGLTextures. run. rewrite Hloop.
    rewrite !app_nil_r. reflexivity. }
  rewrite Hlog in Hrun. injection Hrun as Hs _. rewrite Hlog. f_equal.
  rewrite Hs. pose proof (destroyed_entries s _ Hv Hlen' Harr) as Ha.
  destruct s'; cbn in *. unfold destroyed. cbn. congruence.
Qed.

(** X3: with a well-formed registry [DestroyGLTextures] issues one
    [glDeleteTextures] for each entry below the counter whose ID is not
    (uint32_t)-1, in index order, and nothing else; it sets the counter to
    0, turns exactly those entries into ("/0", (uint32_t)-1) and leaves
    every other entry and every other field as it was. *)
Theorem DestroyGLTextures_deletes_loaded (s : State) :
  valid_registry s ->
  DestroyGLTextures s =
    Done tt (destroyed s) (delete_log (loaded_entries s)) /\
  m_loadedTextures (destroyed s) = 0 /\
  valid_registry (destroyed s) /\
  forall i e, 0 <= i < 16 ->
    m_textureIDs s !! Z.to_nat i = Some e ->
    m_textureIDs (destroyed s) !! Z.to_nat i =
    Some (if ((i <? m_loadedTextures s) &&
              negb (TEXTURE_INFO.ID e =? uint32 (-1)))%bool
          then TEXTURE_INFO.mk "/0" (uint32 (-1)) else e).
Proof.
  intros Hv. pose proof (DestroyGLTextures_destroyed s Hv) as Hrun.
  split; [exact Hrun|]. split; [reflexivity|].
  destruct (DestroyGLTextures_run s Hv)
    as (s' & l & Hrun' & _ & _ & _ & _ & _ & Hlen' & Harr).
  rewrite Hrun in Hrun'. injection Hrun' as <- _.
  split; [split; [exact Hlen'|cbn; lia]|]. exact Harr.
Qed.

(** X4: after [DestroyGLTextures] no tag is found any more, a second
    [DestroyGLTextures] deletes nothing and changes nothing, and
    [BindGLTextures] binds nothing. *)
Theorem DestroyGLTextures_then_nothing_loaded (s : State) :
  valid_registry s ->
  exists s' l,
    DestroyGLTextures s = Done tt s' l /\
    (forall tag, FindTextureSlot tag s' = Done (-1) s' []) /\
    DestroyGLTextures s' = Done tt s' [] /\
    BindGLTextures s' = Done tt s' [].
Proof.
  intros Hv. exists (destroyed s), (delete_log (loaded_entries s)).
  split; [apply DestroyGLTextures_destroyed, Hv|].
  repeat split.
Qed.

End BindDestroyFacts.

Lemma BindGLTextures_binds_loaded_witness :
  BindGLTextures demo_three =
    Done tt demo_three (bind_log_from 0 (loaded_entries demo_three)) /\
  length (log_of (BindGLTextures demo_three)) =
    (2 * Z.to_nat (m_loadedTextures demo_three))%nat /\
  forall i e, 0 <= i < m_loadedTextures demo_three ->
    m_textureIDs demo_three !! Z.to_nat i = Some e ->
    exists before after,
      log_of (BindGLTextures demo_three) =
      (before ++
       [ glActiveTexture i;
         glBindTexture GL_TEXTURE_2D (TEXTURE_INFO.ID e) ] ++ after)%list /\
      length before = (2 * Z.to_nat i)%nat.
Proof. apply (BindGLTextures_binds_loaded demo_three), demo_three_valid. Defined.

Lemma DestroyGLTextures_deletes_loaded_witness :
  DestroyGLTextures demo_three =
    Done tt (destroyed demo_three) (delete_log (loaded_entries demo_three)) /\
  m_loadedTextures (destroyed demo_three) = 0 /\
  valid_registry (destroyed demo_three) /\
  forall i e, 0 <= i < 16 ->
    m_textureIDs demo_three !! Z.to_nat i = Some e ->
    m_textureIDs (destroyed demo_three) !! Z.to_nat i =
    Some (if ((i <? m_loadedTextures demo_three) &&
              negb (TEXTURE_INFO.ID e =? uint32 (-1)))%bool
          then TEXTURE_INFO.mk "/0" (uint32 (-1)) else e).
Proof.
  apply (DestroyGLTextures_deletes_loaded demo_three), demo_three_valid.
Defined.

Lemma DestroyGLTextures_then_nothing_loaded_witness :
  exists s' l,
    DestroyGLTextures demo_three = Done tt s' l /\
    (forall tag, FindTextureSlot tag s' = Done (-1) s' []) /\
    DestroyGLTextures s' = Done tt s' [] /\
    BindGLTextures s' = Done tt s' [].
Proof.
  apply (DestroyGLTextures_then_nothing_loaded demo_three), demo_three_valid.
Defined.

(** ** Failed loads and the null shader manager *)

Section EdgeFacts.
Context {glm : GlmOps}.

(** X5: the two ways [CreateGLTexture] fails.  When [stbi_load] gives no
    image, no OpenGL call is made and the state is untouched.  When the
    image has an unsupported channel count, a texture name has already been
    generated and bound: the call returns false with that name consumed,
    still bound to GL_TEXTURE_2D, never deleted and not entered in the
    registry. *)
Theorem CreateGLTexture_failure_paths (s : State) (filename tag : string) :
  load_fails s filename = true ->
  CreateGLTexture filename tag s =
  match disk s filename with
  | None =>
      Done false s
        [ stbi_set_flip_vertically_on_load true; stbi_load filename;
          cout (CouldNotLoad filename) ]
  | Some image =>
      let textureID := uint32 (gl_name s (gl_generated s)) in
      Done false (set_gl_generated (S (gl_generated s)) s)
        [ stbi_set_flip_vertically_on_load true; stbi_load filename;
          cout (SuccessfullyLoaded filename (width image) (height image)
                  (colorChannels image));
          glGenTextures textureID;
          glBindTexture GL_TEXTURE_2D textureID;
          glTexParameteri GL_TEXTURE_2D GL_TEXTURE_WRAP_S GL_REPEAT;
          glTexParameteri GL_TEXTURE_2D GL_TEXTURE_WRAP_T GL_REPEAT;
          glTexParameteri GL_TEXTURE_2D GL_TEXTURE_MIN_FILTER
            GL_LINEAR_MIPMAP_LINEAR;
          glTexParameteri GL_TEXTURE_2D GL_TEXTURE_MAG_FILTER GL_LINEAR;
          cout (UnsupportedChannels (colorChannels image) filename);
          stbi_image_free ]
  end.
Proof.
  unfold load_fails. intros Hfail.
  unfold CreateGLTexture, gen_texture. run.
  destruct (disk s filename) as [image|]; [|reflexivity].
  apply negb_true_iff, orb_false_iff in Hfail as [E3 E4].
  rewrite E3, E4. reflexivity.
Qed.

Lemma SetShaderTexture_null (s : State) (tag : string) (scale : float) :
  m_pShaderManager s = None ->
  SetShaderTexture tag scale s = Done tt s [CallSetShaderTexture tag scale].
Proof.
  intros E. unfold SetShaderTexture. run. rewrite E. reflexivity.
Qed.

(** X6: with a null shader manager the setters upload nothing and touch
    nothing, whatever the registry holds, and [RenderScene] still issues
    its eight draw calls: its log is the bare sequence of setter and draw
    calls. *)
Theorem null_shader_manager_draws_without_uniforms (s : State) :
  m_pShaderManager s = None ->
  (forall scaleXYZ X Y Z positionXYZ,
     SetTransformations scaleXYZ X Y Z positionXYZ s =
     Done tt s [CallSetTransformations scaleXYZ X Y Z positionXYZ]) /\
  (forall tag scale,
     SetShaderTexture tag scale s =
     Done tt s [CallSetShaderTexture tag scale]) /\
  RenderScene s = Done tt s fixed_scene.
Proof.
  intros E. split; [|split].
  - intros. rewrite SetTransformations_run, E. reflexivity.
  - intros. apply SetShaderTexture_null, E.
  - unfold RenderScene, SetTextureUVScale. run.
    repeat (rewrite ?SetTransformations_run, ?SetShaderTexture_null
              by assumption; run).
    rewrite E. reflexivity.
Qed.

End EdgeFacts.

Lemma CreateGLTexture_failure_paths_witness :
  CreateGLTexture "textures/mask.png" "mask" grey_alpha_new =
  match disk grey_alpha_new "textures/mask.png" with
  | None =>
      Done false grey_alpha_new
        [ stbi_set_flip_vertically_on_load true;
          stbi_load "textures/mask.png";
          cout (CouldNotLoad "textures/mask.png") ]
  | Some image =>
      let textureID :=
        uint32 (gl_name grey_alpha_new (gl_generated grey_alpha_new)) in
      Done false
        (set_gl_generated (S (gl_generated grey_alpha_new)) grey_alpha_new)
        [ stbi_set_flip_vertically_on_load true;
          stbi_load "textures/mask.png";
          cout (SuccessfullyLoaded "textures/mask.png" (width image)
                  (height image) (colorChannels image));
          glGenTextures textureID;
          glBindTexture GL_TEXTURE_2D textureID;
          glTexParameteri GL_TEXTURE_2D GL_TEXTURE_WRAP_S GL_REPEAT;
          glTexParameteri GL_TEXTURE_2D GL_TEXTURE_WRAP_T GL_REPEAT;
          glTexParameteri GL_TEXTURE_2D GL_TEXTURE_MIN_FILTER
            GL_LINEAR_MIPMAP_LINEAR;
          glTexParameteri GL_TEXTURE_2D GL_TEXTURE_MAG_FILTER GL_LINEAR;
          cout (UnsupportedChannels (colorChannels image)
                  "textures/mask.png");
          stbi_image_free ]
  end.
Proof.
  apply (CreateGLTexture_failure_paths grey_alpha_new "textures/mask.png"
           "mask").
  reflexivity.
Defined.

Lemma null_shader_manager_draws_without_uniforms_witness :
  (forall scaleXYZ X Y Z positionXYZ,
     SetTransformations scaleXYZ X Y Z positionXYZ null_broken =
     Done tt null_broken
       [CallSetTransformations scaleXYZ X Y Z positionXYZ]) /\
  (forall tag scale,
     SetShaderTexture tag scale null_broken =
     Done tt null_broken [CallSetShaderTexture tag scale]) /\
  RenderScene null_broken = Done tt null_broken fixed_scene.
Proof.
  apply (null_shader_manager_draws_without_uniforms null_broken).
  reflexivity.
Defined.

(** ** What the member functions leave alone *)

Section Keeps.
Context {glm : GlmOps} {X : Type}.
Variable f : State -> X.

Lemma keeps_ret {A} (a : A) : keeps f (ret a).
Proof. intros s a' s' l H. injection H. intros. subst. reflexivity. Qed.

Lemma keeps_get : keeps f get.
Proof. intros s a' s' l H. injection H. intros. subst. reflexivity. Qed.

Lemma keeps_emit (e : event) : keeps f (emit e).
Proof. intros s a' s' l H. injection H. intros. subst. reflexivity. Qed.

Lemma keeps_undefined {A} (u : undefined_behaviour) :
  keeps f (undefined (A := A) u).
Proof. intros s a' s' l H. discriminate H. Qed.

Lemma keeps_modify (g : State -> State) :
  (forall s, f (g s) = f s) -> keeps f (modify g).
Proof. intros Hg s a' s' l H. injection H. intros. subst. apply Hg. Qed.

Lemma keeps_bind {A B} (m : M A) (k : A -> M B) :
  keeps f m -> (forall a, keeps f (k a)) -> keeps f (m ≫= k).
Proof.
  intros Hm Hk s b s2 l H.
  apply bind_Done_inv in H as (a & s1 & l1 & l2 & H1 & H2 & _).
  rewrite (Hk a s1 b s2 l2 H2). apply (Hm s a s1 l1 H1).
Qed.

Lemma keeps_for_loop (body : Z -> M unit) (count : nat) :
  (forall i, keeps f (body i)) -> forall i, keeps f (for_loop count i body).
Proof.
  intros Hbody. induction count as [|count IH]; intros i; cbn [for_loop].
  - apply keeps_ret.
  - apply keeps_bind; [apply Hbody|intros _; apply IH].
Qed.

Lemma keeps_read_slot (i : Z) : keeps f (read_slot i).
Proof.
  intros s a s' l. unfold read_slot.
  destruct (in_bounds i); [|discriminate].
  destruct (m_textureIDs s !! Z.to_nat i); [|discriminate].
  intros H. injection H. intros. subst. reflexivity.
Qed.

Lemma keeps_shader_call (e : event) : keeps f (shader_call e).
Proof.
  apply keeps_bind; [apply keeps_get|]. intros s.
  destruct (m_pShaderManager s); [apply keeps_emit|apply keeps_undefined].
Qed.

Lemma keeps_FindTextureSlot_from (tag : string) (count : nat) :
  forall i, keeps f (FindTextureSlot_from count i tag).
Proof.
  induction count as [|count IH]; intros i; cbn [FindTextureSlot_from].
  - apply keeps_ret.
  - apply keeps_bind; [apply keeps_read_slot|]. intros e.
    destruct (String.eqb (TEXTURE_INFO.tag e) tag);
      [apply keeps_ret|apply IH].
Qed.

End Keeps.

(** Break a computation into its calls; state changes are left as goals
    about the observation. *)
Ltac keeps_with known :=
  repeat first
    [ known
    | apply keeps_ret | apply keeps_get | apply keeps_emit
    | apply keeps_undefined | apply keeps_read_slot
    | apply keeps_shader_call | apply keeps_FindTextureSlot_from
    | apply keeps_modify; intros ?; reflexivity
    | apply keeps_for_loop; intros ?
    | apply keeps_bind; [|intros ?]
    | match goal with
      | |- keeps _ (match ?x with _ => _ end) => destruct x
      end ].

Section KeepsFacts.
Context {glm : GlmOps}.

Lemma BindGLTextures_keeps_state : keeps (fun s => s) BindGLTextures.
Proof. unfold BindGLTextures. keeps_with fail. Qed.

Lemma FindTextureSlot_keeps_state (tag : string) :
  keeps (fun s => s) (FindTextureSlot tag).
Proof. unfold FindTextureSlot. keeps_with fail. Qed.

Lemma SetTransformations_keeps_state scaleXYZ X Y Z positionXYZ :
  keeps (fun s => s) (SetTransformations scaleXYZ X Y Z positionXYZ).
Proof. unfold SetTransformations. cbv zeta. keeps_with fail. Qed.

Lemma SetShaderTexture_keeps_state (tag : string) (scale : float) :
  keeps (fun s => s) (SetShaderTexture tag scale).
Proof.
  unfold SetShaderTexture.
  keeps_with ltac:(apply FindTextureSlot_keeps_state).
Qed.

Lemma SetupSceneLights_keeps_state : keeps (fun s => s) SetupSceneLights.
Proof. unfold SetupSceneLights. keeps_with fail. Qed.

Lemma RenderScene_keeps_state : keeps (fun s => s) RenderScene.
Proof.
  unfold RenderScene, SetTextureUVScale. cbv zeta.
  keeps_with ltac:(first [ apply SetTransformations_keeps_state
                         | apply SetShaderTexture_keeps_state ]).
Qed.

Lemma write_slot_keeps_shader (i : Z) (g : TEXTURE_INFO.t -> TEXTURE_INFO.t) :
  keeps m_pShaderManager (write_slot i g).
Proof. unfold write_slot. keeps_with fail. Qed.

Lemma CreateGLTexture_keeps_shader (filename tag : string) :
  keeps m_pShaderManager (CreateGLTexture filename tag).
Proof.
  unfold CreateGLTexture, gen_texture, store_texture. cbv zeta.
  keeps_with ltac:(apply write_slot_keeps_shader).
Qed.

Lemma DestroyGLTextures_keeps_shader : keeps m_pShaderManager DestroyGLTextures.
Proof.
  unfold DestroyGLTextures, DestroyGLTextures_body.
  keeps_with ltac:(apply write_slot_keeps_shader).
Qed.

Lemma LoadSceneTextures_keeps_shader : keeps m_pShaderManager LoadSceneTextures.
Proof.
  unfold LoadSceneTextures, BindGLTextures.
  keeps_with ltac:(apply CreateGLTexture_keeps_shader).
Qed.

Lemma PrepareScene_keeps_shader : keeps m_pShaderManager PrepareScene.
Proof.
  unfold PrepareScene, SetupSceneLights.
  keeps_with ltac:(apply LoadSceneTextures_keeps_shader).
Qed.

(** X7: the lookup, binding, setter, lighting and rendering functions are
    read-only: whenever one of them returns, from any state, the state is
    exactly the one it was called in. *)
Theorem read_only_member_functions :
  keeps (fun s => s) BindGLTextures /\
  (forall tag, keeps (fun s => s) (FindTextureSlot tag)) /\
  (forall scaleXYZ X Y Z positionXYZ,
     keeps (fun s => s) (SetTransformations scaleXYZ X Y Z positionXYZ)) /\
  (forall tag scale, keeps (fun s => s) (SetShaderTexture tag scale)) /\
  keeps (fun s => s) SetupSceneLights /\
  keeps (fun s => s) RenderScene.
Proof.
  split; [exact BindGLTextures_keeps_state|].
  split; [exact FindTextureSlot_keeps_state|].
  split; [exact SetTransformations_keeps_state|].
  split; [exact SetShaderTexture_keeps_state|].
  split; [exact SetupSceneLights_keeps_state|].
  exact RenderScene_keeps_state.
Qed.

(** X8: the functions that do write - [CreateGLTexture],
    [DestroyGLTextures], [LoadSceneTextures], [PrepareScene] - never
    reassign [m_pShaderManager]. *)
Theorem shader_manager_never_reassigned :
  (forall filename tag,
     keeps m_pShaderManager (CreateGLTexture filename tag)) /\
  keeps m_pShaderManager DestroyGLTextures /\
  keeps m_pShaderManager LoadSceneTextures /\
  keeps m_pShaderManager PrepareScene.
Proof.
  split; [exact CreateGLTexture_keeps_shader|].
  split; [exact DestroyGLTextures_keeps_shader|].
  split; [exact LoadSceneTextures_keeps_shader|].
  exact PrepareScene_keeps_shader.
Qed.

Lemma SetupSceneLights_null (s : State) :
  m_pShaderManager s = None ->
  SetupSceneLights s = Undefined NullShaderManager.
Proof.
  intros E. unfold SetupSceneLights. run.
  rewrite (shader_call_null s _ E). reflexivity.
Qed.

(** X9: [SetupSceneLights] calls through [m_pShaderManager] without the
    null test the setters make: on an object built with a null shader
    manager it is undefined, and so [PrepareScene] never returns on such an
    object. *)
Theorem PrepareScene_null_shader_manager (s : State) :
  m_pShaderManager s = None ->
  SetupSceneLights s = Undefined NullShaderManager /\
  exists u, PrepareScene s = Undefined u.
Proof.
  intros E. split; [apply SetupSceneLights_null, E|].
  destruct (PrepareScene s) as [[] s' l|u] eqn:Hrun; [|eauto].
  exfalso. unfold PrepareScene in Hrun.
  apply bind_Done_inv in Hrun as (a1 & s1 & l1 & r1 & H1 & H & _).
  apply bind_Done_inv in H as (a2 & s2 & l2 & r2 & H2 & H & _).
  apply bind_Done_inv in H as (a3 & s3 & l3 & r3 & H3 & H & _).
  apply bind_Done_inv in H as (a4 & s4 & l4 & r4 & H4 & H & _).
  rewrite SetupSceneLights_null in H; [discriminate H|].
  rewrite (keeps_emit m_pShaderManager _ _ _ _ _ H4).
  rewrite (keeps_emit m_pShaderManager _ _ _ _ _ H3).
  rewrite (keeps_emit m_pShaderManager _ _ _ _ _ H2).
  rewrite (LoadSceneTextures_keeps_shader s a1 s1 l1 H1). exact E.
Qed.

End KeepsFacts.

Lemma PrepareScene_null_shader_manager_witness :
  SetupSceneLights null_new = Undefined NullShaderManager /\
  exists u, PrepareScene null_new = Undefined u.
Proof. apply (PrepareScene_null_shader_manager null_new). reflexivity. Defined.

(** ** The sampler slot and the bound texture unit *)

Section SamplerFacts.
Context {glm : GlmOps}.

(** X10: for a tag that is loaded, the sampler slot [SetShaderTexture]
    uploads is the index of an entry below the counter that carries the
    tag, and it is a texture unit that [BindGLTextures] selects and binds
    to that entry's ID. *)
Theorem sampler_slot_is_bound_unit (s : State) (sm : N) (tag : string)
    (scale : float) :
  valid_registry s -> m_pShaderManager s = Some sm ->
  (exists i, 0 <= i < m_loadedTextures s /\ tag_at s i tag) ->
  exists r e before after,
    0 <= r < m_loadedTextures s /\
    m_textureIDs s !! Z.to_nat r = Some e /\
    TEXTURE_INFO.tag e = tag /\
    SetShaderTexture tag scale s =
      Done tt s
        [ CallSetShaderTexture tag scale;
          setIntValue "bUseTexture" 1;
          setSampler2DValue "objectTexture" r;
          setVec2Value "UVscale" (mk_vec2 scale scale) ] /\
    BindGLTextures s =
      Done tt s
        (before ++
         [ glActiveTexture r;
           glBindTexture GL_TEXTURE_2D (TEXTURE_INFO.ID e) ] ++ after)%list.
Proof.
  intros Hv Hsm (i & Hi & Hat). pose proof Hv as [Hlen Hn].
  destruct (FindTextureSlot_correct s tag Hv) as (_ & Hchar & _).
  destruct Hchar as [[_ Hnone] | (Hr & e & He & Htag)];
    [exfalso; exact (Hnone i Hi Hat)|].
  assert (Hk : loaded_entries s !! Z.to_nat (slot_of tag s) = Some e).
  { unfold loaded_entries. rewrite lookup_take_lt by lia. exact He. }
  destruct (bind_log_from_lookup _ 0 _ _ Hk) as (before & after & Hlog & _).
  rewrite Z.add_0_l, Z2Nat.id in Hlog by lia.
  exists (slot_of tag s), e, before, after.
  split; [exact Hr|]. split; [exact He|]. split; [exact Htag|].
  split.
  - rewrite (SetShaderTexture_run s tag scale Hv), Hsm. reflexivity.
  - rewrite (BindGLTextures_log s Hv), Hlog. reflexivity.
Qed.

End SamplerFacts.

Lemma demo_three_has_gray :
  exists i, 0 <= i < m_loadedTextures demo_three /\ tag_at demo_three i "gray".
Proof.
  exists 1. split; [cbn; lia|].
  exists (TEXTURE_INFO.mk "gray" 2). split; reflexivity.
Qed.

Lemma sampler_slot_is_bound_unit_witness :
  exists r e before after,
    0 <= r < m_loadedTextures demo_three /\
    m_textureIDs demo_three !! Z.to_nat r = Some e /\
    TEXTURE_INFO.tag e = "gray" /\
    SetShaderTexture "gray" (f32 1.0) demo_three =
      Done tt demo_three
        [ CallSetShaderTexture "gray" (f32 1.0);
          setIntValue "bUseTexture" 1;
          setSampler2DValue "objectTexture" r;
          setVec2Value "UVscale" (mk_vec2 (f32 1.0) (f32 1.0)) ] /\
    BindGLTextures demo_three =
      Done tt demo_three
        (before ++
         [ glActiveTexture r;
           glBindTexture GL_TEXTURE_2D (TEXTURE_INFO.ID e) ] ++ after)%list.
Proof.
  apply (sampler_slot_is_bound_unit demo_three 1%N "gray" (f32 1.0)).
  - exact demo_three_valid.
  - reflexivity.
  - exact demo_three_has_gray.
Defined.

(** ** Loading the scene's textures *)

Section LoadSceneFacts.
Context {glm : GlmOps}.

Lemma after_load_run (s : State) (filename tag : string) :
  valid_registry s ->
  (load_fails s filename = false -> m_loadedTextures s < 16) ->
  exists b l,
    CreateGLTexture filename tag s = Done b (after_load filename tag s) l.
Proof.
  intros [Hlen Hn] Hroom.
  pose proof (CreateGLTexture_cases s filename tag) as Hc.
  unfold after_load, load_fails in *.
  destruct (disk s filename) as [image|]; [|eauto].
  destruct ((colorChannels image =? 3) || (colorChannels image =? 4));
    [|destruct Hc as [l Hc]; eauto].
  specialize (Hroom eq_refl).
  replace (in_bounds (m_loadedTextures s)) with true in Hc
    by (symmetry; apply in_bounds_true; lia).
  destruct (lookup_lt_is_Some_2 (m_textureIDs s)
              (Z.to_nat (m_loadedTextures s))) as [e He]; [lia|].
  rewrite He in Hc. eauto.
Qed.

Lemma after_load_facts (s : State) (filename tag : string) :
  valid_registry s ->
  (load_fails s filename = false -> m_loadedTextures s < 16) ->
  valid_registry (after_load filename tag s) /\
  loaded_tags (after_load filename tag s) =
    (loaded_tags s ++ if load_fails s filename then [] else [tag])%list /\
  disk (after_load filename tag s) = disk s /\
  m_pShaderManager (after_load filename tag s) = m_pShaderManager s.
Proof.
  intros Hv Hroom. unfold after_load, load_fails in *.
  destruct (disk s filename) as [image|].
  2: { rewrite app_nil_r. auto. }
  destruct ((colorChannels image =? 3) || (colorChannels image =? 4));
    cbn [negb].
  - specialize (Hroom eq_refl).
    split; [apply texture_stored_valid; assumption|].
    split; [apply loaded_tags_stored; assumption|]. split; reflexivity.
  - rewrite app_nil_r. split; [exact Hv|]. repeat split.
Qed.

Lemma tags_loaded_cons (s : State) (ft : string * string)
    (fts : list (string * string)) :
  tags_loaded s (ft :: fts) =
  ((if load_fails s (fst ft) then [] else [snd ft]) ++ tags_loaded s fts)%list.
Proof.
  unfold tags_loaded. cbn [List.filter].
  destruct (load_fails s (fst ft)); reflexivity.
Qed.

Lemma tags_loaded_disk (s s' : State) (fts : list (string * string)) :
  disk s' = disk s -> tags_loaded s' fts = tags_loaded s fts.
Proof.
  intros Hd. unfold tags_loaded, load_fails. rewrite Hd. reflexivity.
Qed.

Lemma after_loads_facts (fts : list (string * string)) :
  forall s,
    valid_registry s ->
    m_loadedTextures s + Z.of_nat (length (tags_loaded s fts)) <= 16 ->
    valid_registry (after_loads fts s) /\
    loaded_tags (after_loads fts s) =
      (loaded_tags s ++ tags_loaded s fts)%list /\
    disk (after_loads fts s) = disk s /\
    m_pShaderManager (after_loads fts s) = m_pShaderManager s.
Proof.
  induction fts as [|ft fts IH]; intros s Hv Hroom.
  - cbn. rewrite app_nil_r. auto.
  - rewrite tags_loaded_cons, length_app in Hroom.
    assert (Hroom1 : load_fails s (fst ft) = false -> m_loadedTextures s < 16).
    { intros E. rewrite E in Hroom. cbn [length] in Hroom. lia. }
    destruct (after_load_facts s (fst ft) (snd ft) Hv Hroom1)
      as (Hv1 & Htags1 & Hdisk1 & Hsm1).
    set (s1 := after_load (fst ft) (snd ft) s) in *.
    assert (Hlen1 : m_loadedTextures s1 =
                    m_loadedTextures s +
                    Z.of_nat (length
                      (if load_fails s (fst ft) then [] else [snd ft]))).
    { rewrite <- (loaded_tags_length s1 Hv1), Htags1, length_app.
      rewrite <- (loaded_tags_length s Hv). lia. }
    destruct (IH s1 Hv1) as (Hv' & Htags' & Hdisk' & Hsm').
    { rewrite (tags_loaded_disk s s1 fts Hdisk1). lia. }
    cbn [after_loads fold_left]. fold s1. fold (after_loads fts s1).
    split; [exact Hv'|]. split; [|split; congruence].
    rewrite Htags', Htags1, (tags_loaded_disk s s1 fts Hdisk1).
    rewrite tags_loaded_cons, app_assoc. reflexivity.
Qed.

Lemma load_then_run {A} (k : M A) (fts : list (string * string)) :
  forall s,
    valid_registry s ->
    m_loadedTextures s + Z.of_nat (length (tags_loaded s fts)) <= 16 ->
    exists l,
      load_then fts k s =
      match k (after_loads fts s) with
      | Done a s2 l2 => Done a s2 (l ++ l2)
      | Undefined u => Undefined u
      end.
Proof.
  induction fts as [|ft fts IH]; intros s Hv Hroom.
  - exists []. cbn. destruct (k s); reflexivity.
  - rewrite tags_loaded_cons, length_app in Hroom.
    assert (Hroom1 : load_fails s (fst ft) = false -> m_loadedTextures s < 16).
    { intros E. rewrite E in Hroom. cbn [length] in Hroom. lia. }
    destruct (after_load_run s (fst ft) (snd ft) Hv Hroom1) as (b & l1 & Hrun).
    destruct (after_load_facts s (fst ft) (snd ft) Hv Hroom1)
      as (Hv1 & Htags1 & Hdisk1 & _).
    set (s1 := after_load (fst ft) (snd ft) s) in *.
    assert (Hlen1 : m_loadedTextures s1 =
                    m_loadedTextures s +
                    Z.of_nat (length
                      (if load_fails s (fst ft) then [] else [snd ft]))).
    { rewrite <- (loaded_tags_length s1 Hv1), Htags1, length_app.
      rewrite <- (loaded_tags_length s Hv). lia. }
    destruct (IH s1 Hv1) as (l2 & Hrest).
    { rewrite (tags_loaded_disk s s1 fts Hdisk1). lia. }
    exists (l1 ++ l2)%list.
    cbn [load_then fold_right after_loads fold_left].
    fold (load_then fts k). fold s1. fold (after_loads fts s1).
    run. rewrite Hrun, Hrest.
    destruct (k (after_loads fts s1)); [|reflexivity].
    rewrite app_assoc. reflexivity.
Qed.

Lemma LoadSceneTextures_run (s : State) :
  valid_registry s ->
  m_loadedTextures s + Z.of_nat (length (tags_loaded s scene_textures)) <= 16 ->
  exists l,
    LoadSceneTextures s = Done tt (after_loads scene_textures s) l.
Proof.
  intros Hv Hroom.
  destruct (load_then_run BindGLTextures scene_textures s Hv Hroom)
    as (l & Hrun).
  destruct (after_loads_facts scene_textures s Hv Hroom) as (Hv' & _).
  rewrite (BindGLTextures_log _ Hv') in Hrun.
  eexists. exact Hrun.
Qed.


(** X11: [LoadSceneTextures] ignores the result of each load: provided
    the array has room for the images that do load, it returns, and the
    registry then holds the tags it held before followed by the tags of the
    files that loaded, in call order; the counter has grown by their
    number, and [FindTextureSlot] answers with first positions in that
    list. *)
Theorem LoadSceneTextures_appends_loaded_tags (s : State) :
  valid_registry s ->
  m_loadedTextures s + Z.of_nat (length (tags_loaded s scene_textures)) <= 16 ->
  exists s' l,
    LoadSceneTextures s = Done tt s' l /\
    valid_registry s' /\
    loaded_tags s' = (loaded_tags s ++ tags_loaded s scene_textures)%list /\
    m_loadedTextures s' =
      m_loadedTextures s + Z.of_nat (length (tags_loaded s scene_textures)) /\
    forall tag,
      FindTextureSlot tag s' =
      Done (tag_index tag (loaded_tags s ++ tags_loaded s scene_textures)%list)
        s' [].
Proof.
  intros Hv Hroom.
  destruct (LoadSceneTextures_run s Hv Hroom) as (l & Hrun).
  destruct (after_loads_facts scene_textures s Hv Hroom)
    as (Hv' & Htags & _ & _).
  exists (after_loads scene_textures s), l.
  split; [exact Hrun|]. split; [exact Hv'|]. split; [exact Htags|].
  split.
  - rewrite <- (loaded_tags_length _ Hv'), Htags, length_app.
    rewrite <- (loaded_tags_length s Hv). lia.
  - intros tag. rewrite (FindTextureSlot_run _ tag Hv').
    rewrite (slot_of_tag_index _ tag Hv'), Htags. reflexivity.
Qed.

Lemma tags_loaded_all (s : State) :
  Forall (fun f => load_fails s f = false) scene_files ->
  tags_loaded s scene_textures =
  [ "wood"; "whiteWood"; "concrete"; "green"; "gray"; "black" ].
Proof.
  intros Hfiles. repeat (apply Forall_cons_1 in Hfiles as [? Hfiles]).
  unfold tags_loaded, scene_textures. cbn [List.filter fst].
  repeat match goal with H : load_fails _ _ = false |- _ =>
    rewrite H; clear H end.
  reflexivity.
Qed.

Lemma PrepareScene_run (s : State) (sm : N) :
  valid_registry s -> m_pShaderManager s = Some sm ->
  m_loadedTextures s + Z.of_nat (length (tags_loaded s scene_textures)) <= 16 ->
  exists l, PrepareScene s = Done tt (after_loads scene_textures s) l.
Proof.
  intros Hv Hsm Hroom.
  destruct (LoadSceneTextures_run s Hv Hroom) as (l & Hrun).
  destruct (after_loads_facts scene_textures s Hv Hroom)
    as (_ & _ & _ & Hsm').
  rewrite Hsm in Hsm'.
  unfold PrepareScene. run. rewrite Hrun.
  rewrite (SetupSceneLights_run _ sm Hsm'). eexists. reflexivity.
Qed.

(** X12: on an object with a non-null shader manager and an empty registry
    (as the constructor or [DestroyGLTextures] leaves it), if the six scene
    images load, [PrepareScene] returns and the frame rendered next uploads
    the sampler slots 0, 1, 2, 5, 5, 4, 5, 3 for its eight objects: every
    object finds its texture, none gets -1. *)
Theorem scene_samplers_after_PrepareScene (s : State) (sm : N) :
  valid_registry s -> m_pShaderManager s = Some sm ->
  m_loadedTextures s = 0 ->
  Forall (fun f => load_fails s f = false) scene_files ->
  exists s' lp lr,
    PrepareScene s = Done tt s' lp /\
    RenderScene s' = Done tt s' lr /\
    m_loadedTextures s' = 6 /\
    sampler_slots lr = [0; 1; 2; 5; 5; 4; 5; 3].
Proof.
  intros Hv Hsm Hzero Hfiles.
  pose proof (tags_loaded_all s Hfiles) as Hall.
  assert (Hroom : m_loadedTextures s +
                  Z.of_nat (length (tags_loaded s scene_textures)) <= 16)
    by (rewrite Hall, Hzero; cbn; lia).
  assert (Hold : loaded_tags s = []).
  { unfold loaded_tags, loaded_entries. rewrite Hzero. reflexivity. }
  destruct (PrepareScene_run s sm Hv Hsm Hroom) as (lp & Hprep).
  destruct (after_loads_facts scene_textures s Hv Hroom)
    as (Hv' & Htags & _ & Hsm').
  rewrite Hold, Hall in Htags. cbn [app] in Htags. rewrite Hsm in Hsm'.
  set (s' := after_loads scene_textures s) in *.
  exists s', lp, (scene_log (m_pShaderManager s') (fun tag => slot_of tag s')).
  split; [exact Hprep|]. split; [apply RenderScene_run, Hv'|].
  split.
  - rewrite <- (loaded_tags_length s' Hv'), Htags. reflexivity.
  - rewrite Hsm'. unfold scene_log, sampler_slots, transform_log, texture_log.
    cbn [flat_map app].
    rewrite !(slot_of_tag_index s' _ Hv'), Htags. reflexivity.
Qed.





End LoadSceneFacts.

Lemma demo_three_room :
  m_loadedTextures demo_three +
  Z.of_nat (length (tags_loaded demo_three scene_textures)) <= 16.
Proof. vm_compute. discriminate. Qed.

Lemma LoadSceneTextures_appends_loaded_tags_witness :
  exists s' l,
    LoadSceneTextures demo_three = Done tt s' l /\
    valid_registry s' /\
    loaded_tags s' =
      (loaded_tags demo_three ++ tags_loaded demo_three scene_textures)%list /\
    m_loadedTextures s' =
      m_loadedTextures demo_three +
      Z.of_nat (length (tags_loaded demo_three scene_textures)) /\
    forall tag,
      FindTextureSlot tag s' =
      Done (tag_index tag
              (loaded_tags demo_three ++
               tags_loaded demo_three scene_textures)%list)
        s' [].
Proof.
  apply (LoadSceneTextures_appends_loaded_tags demo_three).
  - exact demo_three_valid.
  - exact demo_three_room.
Defined.

Lemma demo_new_valid : valid_registry demo_new.
Proof. split; [reflexivity|cbn; lia]. Qed.

Lemma demo_new_files :
  Forall (fun f => load_fails demo_new f = false) scene_files.
Proof. repeat constructor. Qed.

Lemma scene_samplers_after_PrepareScene_witness :
  exists s' lp lr,
    PrepareScene demo_new = Done tt s' lp /\
    RenderScene s' = Done tt s' lr /\
    m_loadedTextures s' = 6 /\
    sampler_slots lr = [0; 1; 2; 5; 5; 4; 5; 3].
Proof.
  apply (scene_samplers_after_PrepareScene demo_new 1%N).
  - exact demo_new_valid.
  - reflexivity.
  - reflexivity.
  - exact demo_new_files.
Defined.




(** The same run, computed: the three files that load give their tags the
    slots 0, 1, 2 in call order; the missing files and the two-channel
    image leave their tags unknown. *)
Example LoadSceneTextures_some_files :
  tags_loaded some_files_new scene_textures = ["wood"; "green"; "black"] /\
  exists s' l,
    LoadSceneTextures some_files_new = Done tt s' l /\
    m_loadedTextures s' = 3 /\
    FindTextureSlot "wood" s' = Done 0 s' [] /\
    FindTextureSlot "whiteWood" s' = Done (-1) s' [] /\
    FindTextureSlot "concrete" s' = Done (-1) s' [] /\
    FindTextureSlot "green" s' = Done 1 s' [] /\
    FindTextureSlot "gray" s' = Done (-1) s' [] /\
    FindTextureSlot "black" s' = Done 2 s' [].
Proof.
  split; [reflexivity|].
  destruct (LoadSceneTextures some_files_new) as [[] s' l|u] eqn:E;
    vm_compute in E; [|discriminate E].
  injection E as <- <-. eexists _, _. repeat split.
Qed.

(** ** A successful load, a second [PrepareScene], and a full teardown *)

Section LifecycleFacts.
Context {glm : GlmOps}.

(** X14: the successful path of [CreateGLTexture].  With room in the array
    and a 3- or 4-channel image, the call returns true; it generates one
    texture name, binds it, sets wrap and filter parameters, uploads the
    image as GL_RGB8/GL_RGB for 3 channels and GL_RGBA8/GL_RGBA for 4,
    builds mipmaps, frees the image and unbinds; the entry at the old
    counter becomes (tag, generated name), no other entry changes, and the
    counter moves up by one. *)
Theorem CreateGLTexture_success_path (s : State) (filename tag : string)
    (image : stbi_image) :
  valid_registry s -> m_loadedTextures s < 16 ->
  disk s filename = Some image ->
  colorChannels image = 3 \/ colorChannels image = 4 ->
  exists s',
    CreateGLTexture filename tag s =
      Done true s'
        (created_log filename image (uint32 (gl_name s (gl_generated s)))) /\
    In (glTexImage2D GL_TEXTURE_2D
          (if colorChannels image =? 3 then GL_RGB8 else GL_RGBA8)
          (width image) (height image)
          (if colorChannels image =? 3 then GL_RGB else GL_RGBA))
       (created_log filename image (uint32 (gl_name s (gl_generated s)))) /\
    m_textureIDs s' !! Z.to_nat (m_loadedTextures s) =
      Some (TEXTURE_INFO.mk tag (uint32 (gl_name s (gl_generated s)))) /\
    (forall i, i <> Z.to_nat (m_loadedTextures s) ->
       m_textureIDs s' !! i = m_textureIDs s !! i) /\
    m_loadedTextures s' = m_loadedTextures s + 1 /\
    gl_generated s' = S (gl_generated s) /\
    m_pShaderManager s' = m_pShaderManager s.
Proof.
  intros Hv Hlt Hdisk Hch. pose proof Hv as [Hlen Hn].
  assert (Hload : load_fails s filename = false).
  { unfold load_fails. rewrite Hdisk.
    destruct Hch as [-> | ->]; reflexivity. }
  destruct (CreateGLTexture_success s filename tag Hv Hlt Hload) as [Hrun _].
  unfold created_log_of in Hrun. rewrite Hdisk in Hrun.
  exists (texture_stored tag s). split; [exact Hrun|].
  split.
  { unfold created_log. destruct (colorChannels image =? 3); cbn; tauto. }
  cbn [texture_stored m_textureIDs m_loadedTextures gl_generated
       m_pShaderManager].
  split; [apply list_lookup_insert_eq; lia|].
  split; [intros i Hi; apply list_lookup_insert_ne; lia|].
  repeat split.
Qed.

Lemma delete_log_real (es : list TEXTURE_INFO.t) :
  (forall e, In e es -> TEXTURE_INFO.ID e <> uint32 (-1)) ->
  delete_log es = map (fun e => glDeleteTextures (TEXTURE_INFO.ID e)) es.
Proof.
  induction es as [|e es IH]; intros Hreal; [reflexivity|].
  rewrite delete_log_cons, IH by (intros e' He'; apply Hreal; right; exact He').
  unfold delete_log. cbn [flat_map map].
  destruct (Z.eqb_spec (TEXTURE_INFO.ID e) (uint32 (-1))) as [E|_];
    [|reflexivity].
  exfalso. apply (Hreal e); [left; reflexivity|exact E].
Qed.

(** X15: teardown is complete.  In every state reached from the
    constructor by [CreateGLTexture] and [DestroyGLTextures], provided
    [glGenTextures] never hands out (uint32_t)-1, [DestroyGLTextures]
    deletes the ID of every loaded entry, each once and in index order, and
    leaves the registry exactly as the constructor builds it: counter 0 and
    sixteen entries ("/0", (uint32_t)-1). *)
Theorem DestroyGLTextures_restores_constructed_registry (s : State) :
  reachable s -> names_never_sentinel s ->
  exists s',
    DestroyGLTextures s =
      Done tt s'
        (map (fun e => glDeleteTextures (TEXTURE_INFO.ID e))
           (loaded_entries s)) /\
    m_loadedTextures s' = 0 /\
    m_textureIDs s' = replicate 16 (TEXTURE_INFO.mk "/0" (uint32 (-1))).
Proof.
  intros Hreach Hnames.
  pose proof (reachable_valid s Hreach) as Hv. pose proof Hv as [Hlen Hn].
  destruct (reachable_registry_inv s Hreach Hnames) as [Hpre Hids].
  exists (destroyed s). split; [|split; [reflexivity|]].
  - rewrite (DestroyGLTextures_destroyed s Hv). f_equal.
    apply delete_log_real. intros e He.
    apply list_elem_of_In, list_elem_of_lookup in He as [k Hk].
    unfold loaded_entries in Hk.
    assert (Hklt : (k < Z.to_nat (m_loadedTextures s))%nat).
    { apply lookup_lt_Some in Hk. rewrite length_take in Hk. lia. }
    rewrite lookup_take_lt in Hk by exact Hklt.
    apply (Hids (Z.of_nat k) e); [lia|]. rewrite Nat2Z.id. exact Hk.
  - destruct (DestroyGLTextures_run s Hv)
      as (s' & l & Hrun & _ & _ & _ & _ & _ & Hlen' & Harr).
    rewrite (DestroyGLTextures_destroyed s Hv) in Hrun.
    injection Hrun as <- _.
    apply list_eq. intros j.
    destruct (Nat.lt_ge_cases j 16) as [Hj|Hj].
    + destruct (lookup_lt_is_Some_2 (m_textureIDs s) j) as [e He]; [lia|].
      pose proof (Harr (Z.of_nat j) e) as H. rewrite Nat2Z.id in H.
      rewrite H by (assumption || lia).
      rewrite lookup_replicate_2 by exact Hj. f_equal.
      destruct (Z.ltb_spec (Z.of_nat j) (m_loadedTextures s)) as [Hjn|Hjn];
        cbn [andb].
      * destruct (Z.eqb_spec (TEXTURE_INFO.ID e) (uint32 (-1))) as [E|_];
          [|reflexivity].
        exfalso. apply (Hids (Z.of_nat j) e); [lia| |exact E].
        rewrite Nat2Z.id. exact He.
      * specialize (Hpre (Z.of_nat j)). rewrite Nat2Z.id in Hpre.
        rewrite Hpre in He by lia. injection He as <-. reflexivity.
    + rewrite lookup_ge_None_2 by lia. symmetry.
      apply lookup_ge_None_2. rewrite length_replicate. exact Hj.
Qed.

(** X16: a second [PrepareScene] on the same object loads the six images
    again behind the first six: the counter goes to 12, but every tag is
    still found at its first slot, so the frame rendered next uploads the
    same sampler slots as after one [PrepareScene]. *)
Theorem PrepareScene_twice_same_samplers (s : State) (sm : N) :
  valid_registry s -> m_pShaderManager s = Some sm ->
  m_loadedTextures s = 0 ->
  Forall (fun f => load_fails s f = false) scene_files ->
  exists s2 l lr,
    (PrepareScene;; PrepareScene) s = Done tt s2 l /\
    m_loadedTextures s2 = 12 /\
    RenderScene s2 = Done tt s2 lr /\
    sampler_slots lr = [0; 1; 2; 5; 5; 4; 5; 3].
Proof.
  intros Hv Hsm Hzero Hfiles.
  pose proof (tags_loaded_all s Hfiles) as Hall.
  assert (Hroom : m_loadedTextures s +
                  Z.of_nat (length (tags_loaded s scene_textures)) <= 16)
    by (rewrite Hall, Hzero; cbn; lia).
  assert (Hold : loaded_tags s = []).
  { unfold loaded_tags, loaded_entries. rewrite Hzero. reflexivity. }
  destruct (PrepareScene_run s sm Hv Hsm Hroom) as (l1 & Hprep1).
  destruct (after_loads_facts scene_textures s Hv Hroom)
    as (Hv1 & Htags1 & Hdisk1 & Hsm1).
  rewrite Hold, Hall in Htags1. cbn [app] in Htags1. rewrite Hsm in Hsm1.
  set (s1 := after_loads scene_textures s) in *.
  assert (Hall1 : tags_loaded s1 scene_textures = tags_loaded s scene_textures)
    by (apply tags_loaded_disk, Hdisk1).
  rewrite Hall in Hall1.
  assert (Hcount1 : m_loadedTextures s1 = 6)
    by (rewrite <- (loaded_tags_length s1 Hv1), Htags1; reflexivity).
  assert (Hroom1 : m_loadedTextures s1 +
                   Z.of_nat (length (tags_loaded s1 scene_textures)) <= 16)
    by (rewrite Hall1, Hcount1; cbn; lia).
  destruct (PrepareScene_run s1 sm Hv1 Hsm1 Hroom1) as (l2 & Hprep2).
  destruct (after_loads_facts scene_textures s1 Hv1 Hroom1)
    as (Hv2 & Htags2 & _ & Hsm2).
  rewrite Htags1, Hall1 in Htags2. cbn [app] in Htags2. rewrite Hsm1 in Hsm2.
  set (s2 := after_loads scene_textures s1) in *.
  exists s2, (l1 ++ l2)%list,
    (scene_log (m_pShaderManager s2) (fun tag => slot_of tag s2)).
  split; [run; rewrite Hprep1, Hprep2; reflexivity|].
  split; [rewrite <- (loaded_tags_length s2 Hv2), Htags2; reflexivity|].
  split; [apply RenderScene_run, Hv2|].
  rewrite Hsm2. unfold scene_log, sampler_slots, transform_log, texture_log.
  cbn [flat_map app].
  rewrite !(slot_of_tag_index s2 _ Hv2), Htags2. reflexivity.
Qed.

End LifecycleFacts.

Lemma CreateGLTexture_success_path_witness :
  exists s',
    CreateGLTexture "textures/wood.jpg" "wood" demo_new =
      Done true s'
        (created_log "textures/wood.jpg"
           {| width := 64; height := 64; colorChannels := 3 |}
           (uint32 (gl_name demo_new (gl_generated demo_new)))) /\
    In (glTexImage2D GL_TEXTURE_2D
          (if colorChannels
                {| width := 64; height := 64; colorChannels := 3 |} =? 3
           then GL_RGB8 else GL_RGBA8)
          (width {| width := 64; height := 64; colorChannels := 3 |})
          (height {| width := 64; height := 64; colorChannels := 3 |})
          (if colorChannels
                {| width := 64; height := 64; colorChannels := 3 |} =? 3
           then GL_RGB else GL_RGBA))
       (created_log "textures/wood.jpg"
          {| width := 64; height := 64; colorChannels := 3 |}
          (uint32 (gl_name demo_new (gl_generated demo_new)))) /\
    m_textureIDs s' !! Z.to_nat (m_loadedTextures demo_new) =
      Some (TEXTURE_INFO.mk "wood"
              (uint32 (gl_name demo_new (gl_generated demo_new)))) /\
    (forall i, i <> Z.to_nat (m_loadedTextures demo_new) ->
       m_textureIDs s' !! i = m_textureIDs demo_new !! i) /\
    m_loadedTextures s' = m_loadedTextures demo_new + 1 /\
    gl_generated s' = S (gl_generated demo_new) /\
    m_pShaderManager s' = m_pShaderManager demo_new.
Proof.
  apply (CreateGLTexture_success_path demo_new "textures/wood.jpg" "wood"
           {| width := 64; height := 64; colorChannels := 3 |}).
  - exact demo_new_valid.
  - cbn. lia.
  - reflexivity.
  - left. reflexivity.
Defined.

Lemma DestroyGLTextures_restores_constructed_registry_witness :
  exists s',
    DestroyGLTextures one_reloaded =
      Done tt s'
        (map (fun e => glDeleteTextures (TEXTURE_INFO.ID e))
           (loaded_entries one_reloaded)) /\
    m_loadedTextures s' = 0 /\
    m_textureIDs s' = replicate 16 (TEXTURE_INFO.mk "/0" (uint32 (-1))).
Proof.
  apply (DestroyGLTextures_restores_constructed_registry one_reloaded).
  - exact one_reloaded_reachable.
  - exact one_reloaded_names.
Defined.

Lemma PrepareScene_twice_same_samplers_witness :
  exists s2 l lr,
    (PrepareScene;; PrepareScene) demo_new = Done tt s2 l /\
    m_loadedTextures s2 = 12 /\
    RenderScene s2 = Done tt s2 lr /\
    sampler_slots lr = [0; 1; 2; 5; 5; 4; 5; 3].
Proof.
  apply (PrepareScene_twice_same_samplers demo_new 1%N).
  - exact demo_new_valid.
  - reflexivity.
  - reflexivity.
  - exact demo_new_files.
Defined.

(** ** When a load is undefined *)

Section OverflowFacts.
Context {glm : GlmOps}.

(** X17: on a well-formed registry the only call of [CreateGLTexture]
    without a defined result is a load that would succeed while the counter
    is already 16: then, and only then, the call stores at index 16.  A
    failing load is harmless even on a full registry. *)
Theorem CreateGLTexture_undefined_iff_full (s : State)
    (filename tag : string) (u : undefined_behaviour) :
  valid_registry s ->
  (CreateGLTexture filename tag s = Undefined u <->
   m_loadedTextures s = 16 /\ load_fails s filename = false /\
   u = IndexOutOfBounds 16).
Proof.
  intros [Hlen Hn].
  pose proof (CreateGLTexture_cases s filename tag) as Hc.
  unfold load_fails.
  destruct (disk s filename) as [image|].
  2: { rewrite Hc. split; [discriminate|intros (_ & H & _); discriminate H]. }
  destruct ((colorChannels image =? 3) || (colorChannels image =? 4));
    cbn [negb].
  2: { destruct Hc as [l Hc]. rewrite Hc.
       split; [discriminate|intros (_ & H & _); discriminate H]. }
  destruct (in_bounds (m_loadedTextures s)) eqn:Ein.
  - apply in_bounds_true in Ein.
    destruct (lookup_lt_is_Some_2 (m_textureIDs s)
                (Z.to_nat (m_loadedTextures s))) as [e He]; [lia|].
    rewrite He in Hc. rewrite Hc. split; [discriminate|lia].
  - assert (Hfull : m_loadedTextures s = 16).
    { destruct (Z.eq_dec (m_loadedTextures s) 16) as [E|E]; [exact E|].
      assert (in_bounds (m_loadedTextures s) = true)
        by (apply in_bounds_true; lia).
      congruence. }
    rewrite Hc, Hfull. split.
    + intros [= <-]. auto.
    + intros (_ & _ & ->). reflexivity.
Qed.

End OverflowFacts.

Lemma sixteen_loaded_valid : valid_registry sixteen_loaded.
Proof. split; [vm_compute; reflexivity|vm_compute; split; discriminate]. Qed.

Lemma CreateGLTexture_undefined_iff_full_witness :
  CreateGLTexture "textures/black.png" "black" sixteen_loaded =
    Undefined (IndexOutOfBounds 16) <->
  m_loadedTextures sixteen_loaded = 16 /\
  load_fails sixteen_loaded "textures/black.png" = false /\
  IndexOutOfBounds 16 = IndexOutOfBounds 16.
Proof.
  apply (CreateGLTexture_undefined_iff_full sixteen_loaded
           "textures/black.png" "black" (IndexOutOfBounds 16)).
  exact sixteen_loaded_valid.
Defined.
